(** * ross.coupling_element: the local matrices of a coupling element

    A shallow embedding of [ross/coupling_element.py]: the two classes
    [CouplingElement] (4 degrees of freedom per node, 8x8 matrices) and
    [CouplingElement6DoF] (6 degrees of freedom per node, 12x12 matrices),
    their constructors and their matrix methods [M], [K], [C], [G], [Kst].

    Python floats are IEEE 754 binary64 numbers; they are modelled by Rocq's
    primitive [float], whose operations are the same binary64 operations, and
    compared with the floats' own [==] wherever the code or numpy would
    compare them. The numeric parameters are floats, as the docstrings
    declare them; an integer argument that a float represents exactly goes
    through the constructor as that float does. A numpy array of floats of
    rank two is the list of its rows. *)

From Stdlib Require Import List ZArith Bool Floats Lia PeanoNat.
From Stdlib Require String DecimalString DecimalZ.
Import String.StringSyntax.
Local Delimit Scope string_scope with string.
Import ListNotations.

Set Implicit Arguments.
Set Warnings "-inexact-float".
Local Open Scope float_scope.
Local Open Scope nat_scope.

(* ================================================================== *)
(** ** Python floats *)

Module Py.

(** [float(x)] applied to a float returns it unchanged. *)
Definition float (x : PrimFloat.float) : PrimFloat.float := x.

(** Truth value of a float: [x != 0.0]; both zeros are false, NaN is true. *)
Definition bool (x : PrimFloat.float) : Datatypes.bool := negb (x =? 0)%float.

(** A number, as opposed to NaN: [x == x]. *)
Definition not_nan (x : PrimFloat.float) : Prop := is_nan x = false.

End Py.

(* ================================================================== *)
(** ** The part of numpy the element uses *)

Module np.

(** A rank-two array of float64: the list of its rows. *)
Definition ndarray := list (list float).

(** [np.zeros((r, c))]. *)
Definition zeros (shape : nat * nat) : ndarray :=
  repeat (repeat 0%float (snd shape)) (fst shape).

(** [np.array([[...], ...])] on a nested list literal of floats (an integer
    literal [0] among floats is stored as [0.0]). *)
Definition array (rows : list (list float)) : ndarray := rows.

(** [a.shape], for an array with at least one row. *)
Definition shape (a : ndarray) : nat * nat := (length a, length (hd [] a)).

(** Every row has the length the shape announces. *)
Definition has_shape (s : nat * nat) (a : ndarray) : bool :=
  (length a =? fst s) && forallb (fun row => length row =? snd s) a.

(** [a[i, j]] for non-negative indices; [None] stands for IndexError. *)
Definition getitem (a : ndarray) (i j : nat) : option float :=
  match nth_error a i with
  | Some row => nth_error row j
  | None => None
  end.

(** A slice [start:stop] with optional ends: [[:k]] and [[k:]]. *)
Record slice := Slice { start : option nat; stop : option nat }.
Definition upto (k : nat) : slice := Slice None (Some k).
Definition from (k : nat) : slice := Slice (Some k) None.

(** The half-open range of indices a slice selects in a dimension of
    length [len] (ends are clipped to the length). *)
Definition bounds (s : slice) (len : nat) : nat * nat :=
  (Nat.min (match start s with Some k => k | None => 0 end) len,
   Nat.min (match stop s with Some k => k | None => len end) len).

Fixpoint mapi_from {A B : Type} (f : nat -> A -> B) (i : nat) (l : list A) : list B :=
  match l with
  | [] => []
  | x :: l' => f i x :: mapi_from f (S i) l'
  end.

(** [a[rs, cs] = b]: the entries of the selected block are overwritten by
    those of [b], entry by entry from the block's origin. The source only
    assigns a block of exactly the shape of the slice. *)
Definition setitem (a : ndarray) (rs cs : slice) (b : ndarray) : ndarray :=
  let '(r0, r1) := bounds rs (length a) in
  mapi_from (fun i row =>
    if (r0 <=? i) && (i <? r1) then
      let '(c0, c1) := bounds cs (length row) in
      mapi_from (fun j x =>
        if (c0 <=? j) && (j <? c1)
        then nth (j - c0) (nth (i - r0) b []) x
        else x) 0 row
    else row) 0 a.

(** The shape of the block a pair of slices selects. *)
Definition block_shape (a : ndarray) (rs cs : slice) : nat * nat :=
  let '(r0, r1) := bounds rs (fst (shape a)) in
  let '(c0, c1) := bounds cs (snd (shape a)) in
  (r1 - r0, c1 - c0).

(** [a.T]. *)
Definition T (a : ndarray) : ndarray :=
  let '(r, c) := shape a in
  map (fun j => map (fun i => nth j (nth i a []) 0%float) (seq 0 r)) (seq 0 c).

(** [-a]. *)
Definition negative (a : ndarray) : ndarray := map (map PrimFloat.opp) a.

Fixpoint all2 {A : Type} (p : A -> A -> bool) (xs ys : list A) : bool :=
  match xs, ys with
  | [], [] => true
  | x :: xs', y :: ys' => p x y && all2 p xs' ys'
  | _, _ => false
  end.

(** [np.array_equal(a, b)]: same shape and [a == b] at every entry, with
    the floats' own [==] (so [0.0 == -0.0], and NaN differs from itself). *)
Definition array_equal (a b : ndarray) : bool := all2 (all2 PrimFloat.eqb) a b.

(** [np.diag(a)]: the main diagonal. *)
Definition diag (a : ndarray) : list float :=
  let '(r, c) := shape a in
  map (fun i => nth i (nth i a []) 0%float) (seq 0 (Nat.min r c)).

(** The entries with [a[i, j] != 0], in row-major order, with their
    indices: [np.argwhere(a)] together with the values found there. *)
Definition nonzero (a : ndarray) : list (nat * nat * float) :=
  concat (mapi_from (fun i row =>
    concat (mapi_from (fun j x =>
      if (x =? 0)%float then [] else [(i, j, x)]) 0 row)) 0 a).

(** The array whose entry [(i, j)] is [f i j]. *)
Definition fromfunction (s : nat * nat) (f : nat -> nat -> float) : ndarray :=
  map (fun i => map (fun j => f i j) (seq 0 (snd s))) (seq 0 (fst s)).

End np.

(* ================================================================== *)
(** ** Keyword arguments with defaults *)

(** An optional numeric argument: [None] when the caller leaves it out. Its
    default in both signatures is the integer literal [0]; the constructor
    only applies [float(...)] and a truth test to it, and [float(0) = 0.0],
    [bool(0) = bool(0.0) = False], so the omitted argument is bound to [0.0]. *)
Definition optional (o : option float) : float :=
  match o with Some x => x | None => 0%float end.

Definition opt_not_nan (o : option float) : Prop :=
  match o with Some x => Py.not_nan x | None => True end.

(** The argument was left out, or given as a zero. *)
Definition unset_or_zero (o : option float) : bool :=
  match o with Some x => (x =? 0)%float | None => true end.

(** The diametral inertia an element ends up with: half the polar inertia
    when Id is left out or zero, the given Id otherwise. *)
Definition diametral_of (Id : option float) (Ip : float) : float :=
  if unset_or_zero Id then (Ip / 2)%float else optional Id.

(* ================================================================== *)
(** ** class CouplingElement(ShaftElement) *)

Module CouplingElement.

(** The arguments of the constructor, as [__init__] receives them once
    [check_units] has turned quantities into plain floats. *)
Module kw.
Record t := Build {
  m_l : float; m_r : float; Ip_l : float; Ip_r : float;
  Id_l : option float; Id_r : option float;
  kt_x : option float; kt_y : option float;
  kr_x : option float; kr_y : option float;
  ct_x : option float; ct_y : option float;
  cr_x : option float; cr_y : option float;
  L : option float; n : option Z;
  tag : option String.string; color : option String.string
}.
End kw.

(** The attributes of an instance. *)
Record self := Build {
  n : option Z; n_l : option Z; n_r : option Z;
  m_l : float; m_r : float; m : float;
  Ip_l : float; Ip_r : float; Id_l : float; Id_r : float;
  kt_x : float; kt_y : float; kr_x : float; kr_y : float;
  ct_x : float; ct_y : float; cr_x : float; cr_y : float;
  L : option float; tag : option String.string; color : String.string;
  dof_global_index : option (list nat);
  beam_cg : float; slenderness_ratio : float; Im : float
}.

Definition __init__ (a : kw.t) : self :=
  let n := kw.n a in
  let n_r := match n with Some k => Some (k + 1)%Z | None => None end in
  let m_l := Py.float (kw.m_l a) in
  let m_r := Py.float (kw.m_r a) in
  let Id_l := if Py.bool (optional (kw.Id_l a))
              then Py.float (optional (kw.Id_l a))
              else (kw.Ip_l a / 2)%float in
  let Id_r := if Py.bool (optional (kw.Id_r a))
              then Py.float (optional (kw.Id_r a))
              else (kw.Ip_r a / 2)%float in
  {| n := n; n_l := n; n_r := n_r;
     m_l := m_l; m_r := m_r; m := (m_l + m_r)%float;
     Ip_l := Py.float (kw.Ip_l a); Ip_r := Py.float (kw.Ip_r a);
     Id_l := Id_l; Id_r := Id_r;
     kt_x := Py.float (optional (kw.kt_x a));
     kt_y := Py.float (optional (kw.kt_y a));
     kr_x := Py.float (optional (kw.kr_x a));
     kr_y := Py.float (optional (kw.kr_y a));
     ct_x := Py.float (optional (kw.ct_x a));
     ct_y := Py.float (optional (kw.ct_y a));
     cr_x := Py.float (optional (kw.cr_x a));
     cr_y := Py.float (optional (kw.cr_y a));
     L := kw.L a; tag := kw.tag a;
     color := match kw.color a with Some c => c | None => "#add8e6"%string end;
     dof_global_index := None;
     beam_cg := 1e20%float;
     slenderness_ratio := 1e30%float;
     Im := (Id_l + Id_r)%float |}.

Definition M (e : self) : np.ndarray :=
  let m := m_l e in
  let Id := Id_l e in
  let Ml := np.array [[ m;  0;   0;   0];
                      [ 0;  m;   0;   0];
                      [ 0;  0;  Id;   0];
                      [ 0;  0;   0;  Id]]%float in
  let m := m_r e in
  let Id := Id_r e in
  let Mr := np.array [[ m;  0;   0;   0];
                      [ 0;  m;   0;   0];
                      [ 0;  0;  Id;   0];
                      [ 0;  0;   0;  Id]]%float in
  let M := np.zeros (8, 8) in
  let M := np.setitem M (np.upto 4) (np.upto 4) Ml in
  let M := np.setitem M (np.from 4) (np.from 4) Mr in
  M.

Definition K (e : self) : np.ndarray :=
  let k1 := kt_x e in
  let k2 := kt_y e in
  let k3 := kr_x e in
  let k4 := kr_y e in
  np.array [
    [  k1;    0;    0;    0;  -k1;    0;   0;    0];
    [   0;   k2;    0;    0;    0;  -k2;   0;    0];
    [   0;    0;   k3;    0;    0;    0; -k3;    0];
    [   0;    0;    0;   k4;    0;    0;   0;  -k4];
    [ -k1;    0;    0;    0;   k1;    0;   0;    0];
    [   0;  -k2;    0;    0;    0;   k2;   0;    0];
    [   0;    0;  -k3;    0;    0;    0;  k3;    0];
    [   0;    0;    0;  -k4;    0;    0;   0;   k4]
  ]%float.

Definition C (e : self) : np.ndarray :=
  let c1 := ct_x e in
  let c2 := ct_y e in
  let c3 := cr_x e in
  let c4 := cr_y e in
  np.array [
    [  c1;    0;    0;    0;  -c1;    0;   0;    0];
    [   0;   c2;    0;    0;    0;  -c2;   0;    0];
    [   0;    0;   c3;    0;    0;    0; -c3;    0];
    [   0;    0;    0;   c4;    0;    0;   0;  -c4];
    [ -c1;    0;    0;    0;   c1;    0;   0;    0];
    [   0;  -c2;    0;    0;    0;   c2;   0;    0];
    [   0;    0;  -c3;    0;    0;    0;  c3;    0];
    [   0;    0;    0;  -c4;    0;    0;   0;   c4]
  ]%float.

Definition G (e : self) : np.ndarray :=
  let Ip := Ip_l e in
  let Gl := np.array [[0; 0;   0;   0];
                      [0; 0;   0;   0];
                      [0; 0;   0;  Ip];
                      [0; 0; -Ip;   0]]%float in
  let Ip := Ip_r e in
  let Gr := np.array [[0; 0;   0;  0];
                      [0; 0;   0;  0];
                      [0; 0;   0; Ip];
                      [0; 0; -Ip;  0]]%float in
  let G := np.zeros (8, 8) in
  let G := np.setitem G (np.upto 4) (np.upto 4) Gl in
  let G := np.setitem G (np.from 4) (np.from 4) Gr in
  G.

End CouplingElement.

(* ================================================================== *)
(** ** class CouplingElement6DoF(ShaftElement6DoF) *)

Module CouplingElement6DoF.

Module kw.
Record t := Build {
  m_l : float; m_r : float; Ip_l : float; Ip_r : float;
  Id_l : option float; Id_r : option float;
  kt_x : option float; kt_y : option float; kt_z : option float;
  kr_x : option float; kr_y : option float; kr_z : option float;
  ct_x : option float; ct_y : option float; ct_z : option float;
  cr_x : option float; cr_y : option float; cr_z : option float;
  L : option float; n : option Z;
  tag : option String.string; color : option String.string
}.
End kw.

Record self := Build {
  n : option Z; n_l : option Z; n_r : option Z;
  m_l : float; m_r : float; m : float;
  Ip_l : float; Ip_r : float; Id_l : float; Id_r : float;
  kt_x : float; kt_y : float; kt_z : float;
  kr_x : float; kr_y : float; kr_z : float;
  ct_x : float; ct_y : float; ct_z : float;
  cr_x : float; cr_y : float; cr_z : float;
  L : option float; tag : option String.string; color : String.string;
  dof_global_index : option (list nat);
  o_d : float; beam_cg : float; slenderness_ratio : float; Im : float
}.

Definition __init__ (a : kw.t) : self :=
  let n := kw.n a in
  let n_r := match n with Some k => Some (k + 1)%Z | None => None end in
  let m_l := Py.float (kw.m_l a) in
  let m_r := Py.float (kw.m_r a) in
  let Id_l := if Py.bool (optional (kw.Id_l a))
              then Py.float (optional (kw.Id_l a))
              else (kw.Ip_l a / 2)%float in
  let Id_r := if Py.bool (optional (kw.Id_r a))
              then Py.float (optional (kw.Id_r a))
              else (kw.Ip_r a / 2)%float in
  {| n := n; n_l := n; n_r := n_r;
     m_l := m_l; m_r := m_r; m := (m_l + m_r)%float;
     Ip_l := Py.float (kw.Ip_l a); Ip_r := Py.float (kw.Ip_r a);
     Id_l := Id_l; Id_r := Id_r;
     kt_x := Py.float (optional (kw.kt_x a));
     kt_y := Py.float (optional (kw.kt_y a));
     kt_z := Py.float (optional (kw.kt_z a));
     kr_x := Py.float (optional (kw.kr_x a));
     kr_y := Py.float (optional (kw.kr_y a));
     kr_z := Py.float (optional (kw.kr_z a));
     ct_x := Py.float (optional (kw.ct_x a));
     ct_y := Py.float (optional (kw.ct_y a));
     ct_z := Py.float (optional (kw.ct_z a));
     cr_x := Py.float (optional (kw.cr_x a));
     cr_y := Py.float (optional (kw.cr_y a));
     cr_z := Py.float (optional (kw.cr_z a));
     L := kw.L a; tag := kw.tag a;
     color := match kw.color a with Some c => c | None => "#add8e6"%string end;
     dof_global_index := None;
     o_d := 150e-3%float;
     beam_cg := 1e20%float;
     slenderness_ratio := 1e30%float;
     Im := (Id_l + Id_r)%float |}.

Definition M (e : self) : np.ndarray :=
  let m := m_l e in
  let Id := Id_l e in
  let Ip := Ip_l e in
  let Ml := np.array [
    [m;  0;  0;  0;  0;  0];
    [0;  m;  0;  0;  0;  0];
    [0;  0;  m;  0;  0;  0];
    [0;  0;  0; Id;  0;  0];
    [0;  0;  0;  0; Id;  0];
    [0;  0;  0;  0;  0; Ip]
  ]%float in
  let m := m_r e in
  let Id := Id_r e in
  let Ip := Ip_r e in
  let Mr := np.array [
    [m;  0;  0;  0;  0;  0];
    [0;  m;  0;  0;  0;  0];
    [0;  0;  m;  0;  0;  0];
    [0;  0;  0; Id;  0;  0];
    [0;  0;  0;  0; Id;  0];
    [0;  0;  0;  0;  0; Ip]
  ]%float in
  let M := np.zeros (12, 12) in
  let M := np.setitem M (np.upto 6) (np.upto 6) Ml in
  let M := np.setitem M (np.from 6) (np.from 6) Mr in
  M.

Definition K (e : self) : np.ndarray :=
  let k1 := kt_x e in
  let k2 := kt_y e in
  let k3 := kt_z e in
  let k4 := kr_x e in
  let k5 := kr_y e in
  let k6 := kr_z e in
  np.array [
    [  k1;    0;    0;    0;    0;    0; -k1;    0;   0;    0;   0;    0];
    [   0;   k2;    0;    0;    0;    0;   0;  -k2;   0;    0;   0;    0];
    [   0;    0;   k3;    0;    0;    0;   0;    0; -k3;    0;   0;    0];
    [   0;    0;    0;   k4;    0;    0;   0;    0;   0;  -k4;   0;    0];
    [   0;    0;    0;    0;   k5;    0;   0;    0;   0;    0; -k5;    0];
    [   0;    0;    0;    0;    0;   k6;   0;    0;   0;    0;   0;  -k6];
    [ -k1;    0;    0;    0;    0;    0;  k1;    0;   0;    0;   0;    0];
    [   0;  -k2;    0;    0;    0;    0;   0;   k2;   0;    0;   0;    0];
    [   0;    0;  -k3;    0;    0;    0;   0;    0;  k3;    0;   0;    0];
    [   0;    0;    0;  -k4;    0;    0;   0;    0;   0;   k4;   0;    0];
    [   0;    0;    0;    0;  -k5;    0;   0;    0;   0;    0;  k5;    0];
    [   0;    0;    0;    0;    0;  -k6;   0;    0;   0;    0;   0;   k6]
  ]%float.

Definition C (e : self) : np.ndarray :=
  let c1 := ct_x e in
  let c2 := ct_y e in
  let c3 := ct_z e in
  let c4 := cr_x e in
  let c5 := cr_y e in
  let c6 := cr_z e in
  np.array [
    [  c1;    0;    0;    0;    0;    0; -c1;    0;   0;    0;   0;    0];
    [   0;   c2;    0;    0;    0;    0;   0;  -c2;   0;    0;   0;    0];
    [   0;    0;   c3;    0;    0;    0;   0;    0; -c3;    0;   0;    0];
    [   0;    0;    0;   c4;    0;    0;   0;    0;   0;  -c4;   0;    0];
    [   0;    0;    0;    0;   c5;    0;   0;    0;   0;    0; -c5;    0];
    [   0;    0;    0;    0;    0;   c6;   0;    0;   0;    0;   0;  -c6];
    [ -c1;    0;    0;    0;    0;    0;  c1;    0;   0;    0;   0;    0];
    [   0;  -c2;    0;    0;    0;    0;   0;   c2;   0;    0;   0;    0];
    [   0;    0;  -c3;    0;    0;    0;   0;    0;  c3;    0;   0;    0];
    [   0;    0;    0;  -c4;    0;    0;   0;    0;   0;   c4;   0;    0];
    [   0;    0;    0;    0;  -c5;    0;   0;    0;   0;    0;  c5;    0];
    [   0;    0;    0;    0;    0;  -c6;   0;    0;   0;    0;   0;   c6]
  ]%float.

Definition G (e : self) : np.ndarray :=
  let Ip := Ip_l e in
  let Gl := np.array [
    [0; 0; 0;   0;  0; 0];
    [0; 0; 0;   0;  0; 0];
    [0; 0; 0;   0;  0; 0];
    [0; 0; 0;   0; Ip; 0];
    [0; 0; 0; -Ip;  0; 0];
    [0; 0; 0;   0;  0; 0]
  ]%float in
  let Ip := Ip_r e in
  let Gr := np.array [
    [0; 0; 0;   0;  0; 0];
    [0; 0; 0;   0;  0; 0];
    [0; 0; 0;   0;  0; 0];
    [0; 0; 0;   0; Ip; 0];
    [0; 0; 0; -Ip;  0; 0];
    [0; 0; 0;   0;  0; 0]
  ]%float in
  let G := np.zeros (12, 12) in
  let G := np.setitem G (np.upto 6) (np.upto 6) Gl in
  let G := np.setitem G (np.from 6) (np.from 6) Gr in
  G.

Definition Kst (e : self) : np.ndarray := np.zeros (12, 12).

End CouplingElement6DoF.

(* ================================================================== *)
(** ** Local coordinates of a two-node element

    The words of the specification: which degree of freedom of which
    station an index of the local coordinate vector stands for, and what each
    matrix holds between two coordinates. *)

Module Local.

Inductive station := left | right.

Inductive dof := trans_x | trans_y | trans_z | rot_x | rot_y | rot_z.

(** The degrees of freedom of one node, in the order of the local vector. *)
Definition dofs4 : list dof := [trans_x; trans_y; rot_x; rot_y].
Definition dofs6 : list dof := [trans_x; trans_y; trans_z; rot_x; rot_y; rot_z].

Definition station_eqb (s t : station) : bool :=
  match s, t with left, left | right, right => true | _, _ => false end.

Definition dof_eqb (d d' : dof) : bool :=
  match d, d' with
  | trans_x, trans_x | trans_y, trans_y | trans_z, trans_z
  | rot_x, rot_x | rot_y, rot_y | rot_z, rot_z => true
  | _, _ => false
  end.

Definition coord : Type := station * dof.

(** The coordinate an index stands for: the left node's degrees of freedom
    come first, then the right node's; no coordinate past the end. *)
Definition coordinate (dofs : list dof) (i : nat) : option coord :=
  if i <? length dofs
  then option_map (pair left) (nth_error dofs i)
  else option_map (pair right) (nth_error dofs (i - length dofs)).

(** The index of a coordinate. *)
Fixpoint position (dofs : list dof) (d : dof) : option nat :=
  match dofs with
  | [] => None
  | d' :: rest => if dof_eqb d d' then Some 0 else option_map S (position rest d)
  end.

Definition index (dofs : list dof) (p : coord) : option nat :=
  match position dofs (snd p) with
  | Some k => Some (match fst p with left => k | right => length dofs + k end)
  | None => None
  end.

(** What a matrix given coordinate-wise answers to [a[i, j]]. *)
Definition entry (dofs : list dof) (f : coord -> coord -> float) (i j : nat)
  : option float :=
  match coordinate dofs i, coordinate dofs j with
  | Some p, Some q => Some (f p q)
  | _, _ => None
  end.

(** The matrix given coordinate-wise. *)
Definition by_coordinates (dofs : list dof) (f : coord -> coord -> float)
  : np.ndarray :=
  np.fromfunction (2 * length dofs, 2 * length dofs)
    (fun i j => match entry dofs f i j with Some x => x | None => 0%float end).

(** The inertia parameters of the two stations. *)
Record inertia := Inertia {
  mass : station -> float;   (* m_l, m_r *)
  diametral : station -> float;   (* Id_l, Id_r *)
  polar : station -> float   (* Ip_l, Ip_r *)
}.

(** Mass matrix: on the diagonal the mass at a translation, the diametral
    inertia at a rotation about x or y and the polar inertia at the rotation
    about z; zero off the diagonal. *)
Definition mass_entry (I : inertia) (p q : coord) : float :=
  if station_eqb (fst p) (fst q) && dof_eqb (snd p) (snd q) then
    match snd p with
    | trans_x | trans_y | trans_z => mass I (fst p)
    | rot_x | rot_y => diametral I (fst p)
    | rot_z => polar I (fst p)
    end
  else 0%float.

(** The coefficients of the channels of an element, by direction. *)
Definition channels := list (dof * float).

Fixpoint coefficient (ks : channels) (d : dof) : option float :=
  match ks with
  | [] => None
  | (d', k) :: rest => if dof_eqb d d' then Some k else coefficient rest d
  end.

(** The pattern one channel contributes across its pair of coordinates. *)
Definition pattern (k : float) : np.ndarray := [[k; - k]; [- k; k]]%float.

Definition station_index (s : station) : nat :=
  match s with left => 0 | right => 1 end.

(** Stiffness and damping matrices: the direct sum of the channels' patterns,
    each placed on the coordinates of its direction at the two stations. *)
Definition spring_entry (ks : channels) (p q : coord) : float :=
  if dof_eqb (snd p) (snd q) then
    match coefficient ks (snd p) with
    | Some k => nth (station_index (fst q))
                  (nth (station_index (fst p)) (pattern k) []) 0%float
    | None => 0%float
    end
  else 0%float.

(** Gyroscopic matrix as the code has it: within a station, [+Ip] at
    (rot_x, rot_y) and [-Ip] at (rot_y, rot_x); zero elsewhere. *)
Definition gyro_entry (I : inertia) (p q : coord) : float :=
  if station_eqb (fst p) (fst q) then
    match snd p, snd q with
    | rot_x, rot_y => polar I (fst p)
    | rot_y, rot_x => (- polar I (fst p))%float
    | _, _ => 0%float
    end
  else 0%float.

(** Gyroscopic matrix as section 4.5 of the specification words it: [+Ip]
    at (rot_y, rot_x) and [-Ip] at (rot_x, rot_y). *)
Definition gyro_entry_as_specified (I : inertia) (p q : coord) : float :=
  if station_eqb (fst p) (fst q) then
    match snd p, snd q with
    | rot_y, rot_x => polar I (fst p)
    | rot_x, rot_y => (- polar I (fst p))%float
    | _, _ => 0%float
    end
  else 0%float.

(** The four positions of a channel: its direction at either station, as
    row and as column. *)
Definition channel_positions (dofs : list dof) (d : dof) : list (nat * nat) :=
  match position dofs d with
  | Some k => let n := length dofs in [(k, k); (k, n + k); (n + k, k); (n + k, n + k)]
  | None => []
  end.

End Local.

(* ================================================================== *)
(** ** The parameters of an element, read by station and by direction *)

Definition by_station (l r : float) (s : Local.station) : float :=
  match s with Local.left => l | Local.right => r end.

Definition inertia4 (e : CouplingElement.self) : Local.inertia :=
  Local.Inertia
    (by_station (CouplingElement.m_l e) (CouplingElement.m_r e))
    (by_station (CouplingElement.Id_l e) (CouplingElement.Id_r e))
    (by_station (CouplingElement.Ip_l e) (CouplingElement.Ip_r e)).

Definition stiffness4 (e : CouplingElement.self) : Local.channels :=
  [(Local.trans_x, CouplingElement.kt_x e); (Local.trans_y, CouplingElement.kt_y e);
   (Local.rot_x, CouplingElement.kr_x e); (Local.rot_y, CouplingElement.kr_y e)].

Definition damping4 (e : CouplingElement.self) : Local.channels :=
  [(Local.trans_x, CouplingElement.ct_x e); (Local.trans_y, CouplingElement.ct_y e);
   (Local.rot_x, CouplingElement.cr_x e); (Local.rot_y, CouplingElement.cr_y e)].

Definition inertia6 (e : CouplingElement6DoF.self) : Local.inertia :=
  Local.Inertia
    (by_station (CouplingElement6DoF.m_l e) (CouplingElement6DoF.m_r e))
    (by_station (CouplingElement6DoF.Id_l e) (CouplingElement6DoF.Id_r e))
    (by_station (CouplingElement6DoF.Ip_l e) (CouplingElement6DoF.Ip_r e)).

Definition stiffness6 (e : CouplingElement6DoF.self) : Local.channels :=
  [(Local.trans_x, CouplingElement6DoF.kt_x e); (Local.trans_y, CouplingElement6DoF.kt_y e);
   (Local.trans_z, CouplingElement6DoF.kt_z e);
   (Local.rot_x, CouplingElement6DoF.kr_x e); (Local.rot_y, CouplingElement6DoF.kr_y e);
   (Local.rot_z, CouplingElement6DoF.kr_z e)].

Definition damping6 (e : CouplingElement6DoF.self) : Local.channels :=
  [(Local.trans_x, CouplingElement6DoF.ct_x e); (Local.trans_y, CouplingElement6DoF.ct_y e);
   (Local.trans_z, CouplingElement6DoF.ct_z e);
   (Local.rot_x, CouplingElement6DoF.cr_x e); (Local.rot_y, CouplingElement6DoF.cr_y e);
   (Local.rot_z, CouplingElement6DoF.cr_z e)].

(* ================================================================== *)
(** ** Valid parameter sets

    The parameters are real-valued: every number given to the constructor is
    a number, not NaN. *)

Definition inertia_numbers (I : Local.inertia) : Prop :=
  forall s, Py.not_nan (Local.mass I s) /\ Py.not_nan (Local.diametral I s)
            /\ Py.not_nan (Local.polar I s).

Definition channels_numbers (ks : Local.channels) : Prop :=
  forall d k, Local.coefficient ks d = Some k -> Py.not_nan k.

Definition valid4 (a : CouplingElement.kw.t) : Prop :=
  let numbers := Forall Py.not_nan in
  let given := Forall opt_not_nan in
  numbers [CouplingElement.kw.m_l a; CouplingElement.kw.m_r a;
           CouplingElement.kw.Ip_l a; CouplingElement.kw.Ip_r a]
  /\ given [CouplingElement.kw.Id_l a; CouplingElement.kw.Id_r a]
  /\ given [CouplingElement.kw.kt_x a; CouplingElement.kw.kt_y a;
            CouplingElement.kw.kr_x a; CouplingElement.kw.kr_y a]
  /\ given [CouplingElement.kw.ct_x a; CouplingElement.kw.ct_y a;
            CouplingElement.kw.cr_x a; CouplingElement.kw.cr_y a].

Definition valid6 (a : CouplingElement6DoF.kw.t) : Prop :=
  let numbers := Forall Py.not_nan in
  let given := Forall opt_not_nan in
  numbers [CouplingElement6DoF.kw.m_l a; CouplingElement6DoF.kw.m_r a;
           CouplingElement6DoF.kw.Ip_l a; CouplingElement6DoF.kw.Ip_r a]
  /\ given [CouplingElement6DoF.kw.Id_l a; CouplingElement6DoF.kw.Id_r a]
  /\ given [CouplingElement6DoF.kw.kt_x a; CouplingElement6DoF.kw.kt_y a;
            CouplingElement6DoF.kw.kt_z a; CouplingElement6DoF.kw.kr_x a;
            CouplingElement6DoF.kw.kr_y a; CouplingElement6DoF.kw.kr_z a]
  /\ given [CouplingElement6DoF.kw.ct_x a; CouplingElement6DoF.kw.ct_y a;
            CouplingElement6DoF.kw.ct_z a; CouplingElement6DoF.kw.cr_x a;
            CouplingElement6DoF.kw.cr_y a; CouplingElement6DoF.kw.cr_z a].

(* ================================================================== *)
(** ** Setting one channel to zero *)

(** [ks'] is [ks] with the coefficient of direction [d] set to zero: the two
    differ at [d], where [ks'] has a zero, and agree in every other
    direction. *)
Definition zeroes_channel (d : Local.dof) (ks ks' : Local.channels) : Prop :=
  (forall d', d' <> d -> Local.coefficient ks d' = Local.coefficient ks' d')
  /\ exists k z, Local.coefficient ks d = Some k /\ Local.coefficient ks' d = Some z
                 /\ (z =? 0)%float = true /\ (k =? z)%float = false.

Definition mem_position (p : nat * nat) (ps : list (nat * nat)) : bool :=
  existsb (fun q => (fst p =? fst q) && (snd p =? snd q)) ps.

(** [a] and [b] differ at the positions [ps], where [b] is zero, and
    have the same entry, or none, everywhere else. *)
Definition zeroed_exactly_at (ps : list (nat * nat)) (a b : np.ndarray) : Prop :=
  forall i j,
    if mem_position (i, j) ps
    then exists x y, np.getitem a i j = Some x /\ np.getitem b i j = Some y
                     /\ (x =? y)%float = false /\ (y =? 0)%float = true
    else np.getitem a i j = np.getitem b i j.

(* ================================================================== *)
(** ** Concrete elements *)

(** [CouplingElement(m_l=1.0, m_r=1.0, Ip_l=2.0, Ip_r=2.0)]. *)
Definition unit_masses4 : CouplingElement.kw.t :=
  CouplingElement.kw.Build 1 1 2 2 None None
    None None None None  None None None None  None None None None.

(** [CouplingElement(0.0, 0.0, 0.0, 0.0, kt_x=5.0)]. *)
Definition spring_x4 : CouplingElement.kw.t :=
  CouplingElement.kw.Build 0 0 0 0 None None
    (Some 5%float) None None None  None None None None  None None None None.

(** [CouplingElement6DoF(3.0, 4.0, 0.5, 0.25, Id_l=0.0, kt_z=7.0, kr_z=-2.0,
    ct_x=1.5, cr_z=0.125, n=3)]. *)
Definition sample6 : CouplingElement6DoF.kw.t :=
  CouplingElement6DoF.kw.Build 3 4 0.5 0.25 (Some 0%float) None
    None None (Some 7%float) None None (Some (-2)%float)
    (Some 1.5%float) None None None None (Some 0.125%float)
    None (Some 3%Z) None None.

(** [CouplingElement(0.0, 0.0, 0.0, 0.0, kt_x=0.0)]. *)
Definition spring_x4_zeroed : CouplingElement.kw.t :=
  CouplingElement.kw.Build 0 0 0 0 None None
    (Some 0%float) None None None  None None None None  None None None None.

(** [CouplingElement(1.0, 1.0, 2.0, 2.0, ct_y=3.0, cr_x=-1.0)] and the same
    without [cr_x]. *)
Definition damper4 : CouplingElement.kw.t :=
  CouplingElement.kw.Build 1 1 2 2 None None
    None None None None  None (Some 3%float) (Some (-1)%float) None
    None None None None.

Definition damper4_zeroed : CouplingElement.kw.t :=
  CouplingElement.kw.Build 1 1 2 2 None None
    None None None None  None (Some 3%float) None None
    None None None None.

(** [sample6] with [kr_z=0.0], and [sample6] without [ct_x]. *)
Definition sample6_kr_z_zeroed : CouplingElement6DoF.kw.t :=
  CouplingElement6DoF.kw.Build 3 4 0.5 0.25 (Some 0%float) None
    None None (Some 7%float) None None (Some 0%float)
    (Some 1.5%float) None None None None (Some 0.125%float)
    None (Some 3%Z) None None.

Definition sample6_ct_x_zeroed : CouplingElement6DoF.kw.t :=
  CouplingElement6DoF.kw.Build 3 4 0.5 0.25 (Some 0%float) None
    None None (Some 7%float) None None (Some (-2)%float)
    None None None None None (Some 0.125%float)
    None (Some 3%Z) None None.

(** [CouplingElement(-1.0, -2.0, -3.0, -4.0, Id_l=-0.5, Id_r=-0.25, kt_x=-5.0,
    kt_y=-6.0, kr_x=-7.0, kr_y=-8.0, ct_x=-9.0, ct_y=-10.0, cr_x=-11.0,
    cr_y=-12.0)]: every parameter negative. *)
Definition negative4 : CouplingElement.kw.t :=
  CouplingElement.kw.Build (-1) (-2) (-3) (-4) (Some (-0.5)%float) (Some (-0.25)%float)
    (Some (-5)%float) (Some (-6)%float) (Some (-7)%float) (Some (-8)%float)
    (Some (-9)%float) (Some (-10)%float) (Some (-11)%float) (Some (-12)%float)
    None None None None.

(** The same for [CouplingElement6DoF], with [kt_z=-13.0, kr_z=-14.0,
    ct_z=-15.0, cr_z=-16.0]. *)
Definition negative6 : CouplingElement6DoF.kw.t :=
  CouplingElement6DoF.kw.Build (-1) (-2) (-3) (-4)
    (Some (-0.5)%float) (Some (-0.25)%float)
    (Some (-5)%float) (Some (-6)%float) (Some (-13)%float)
    (Some (-7)%float) (Some (-8)%float) (Some (-14)%float)
    (Some (-9)%float) (Some (-10)%float) (Some (-15)%float)
    (Some (-11)%float) (Some (-12)%float) (Some (-16)%float)
    None None None None.

(* ================================================================== *)
(** ** Elements rebuilt, reversed and restricted *)

(** The keyword arguments that pass every attribute of an instance back under
    its own name: [CouplingElement(m_l=e.m_l, ..., Id_l=e.Id_l, ..., L=e.L,
    n=e.n, tag=e.tag, color=e.color)]. *)
Definition kwargs_of4 (e : CouplingElement.self) : CouplingElement.kw.t :=
  CouplingElement.kw.Build
    (CouplingElement.m_l e) (CouplingElement.m_r e)
    (CouplingElement.Ip_l e) (CouplingElement.Ip_r e)
    (Some (CouplingElement.Id_l e)) (Some (CouplingElement.Id_r e))
    (Some (CouplingElement.kt_x e)) (Some (CouplingElement.kt_y e))
    (Some (CouplingElement.kr_x e)) (Some (CouplingElement.kr_y e))
    (Some (CouplingElement.ct_x e)) (Some (CouplingElement.ct_y e))
    (Some (CouplingElement.cr_x e)) (Some (CouplingElement.cr_y e))
    (CouplingElement.L e) (CouplingElement.n e) (CouplingElement.tag e)
    (Some (CouplingElement.color e)).

Definition kwargs_of6 (e : CouplingElement6DoF.self) : CouplingElement6DoF.kw.t :=
  CouplingElement6DoF.kw.Build
    (CouplingElement6DoF.m_l e) (CouplingElement6DoF.m_r e)
    (CouplingElement6DoF.Ip_l e) (CouplingElement6DoF.Ip_r e)
    (Some (CouplingElement6DoF.Id_l e)) (Some (CouplingElement6DoF.Id_r e))
    (Some (CouplingElement6DoF.kt_x e)) (Some (CouplingElement6DoF.kt_y e))
    (Some (CouplingElement6DoF.kt_z e))
    (Some (CouplingElement6DoF.kr_x e)) (Some (CouplingElement6DoF.kr_y e))
    (Some (CouplingElement6DoF.kr_z e))
    (Some (CouplingElement6DoF.ct_x e)) (Some (CouplingElement6DoF.ct_y e))
    (Some (CouplingElement6DoF.ct_z e))
    (Some (CouplingElement6DoF.cr_x e)) (Some (CouplingElement6DoF.cr_y e))
    (Some (CouplingElement6DoF.cr_z e))
    (CouplingElement6DoF.L e) (CouplingElement6DoF.n e) (CouplingElement6DoF.tag e)
    (Some (CouplingElement6DoF.color e)).

(** The arguments with the two stations exchanged: what was given for the
    left station is given for the right one and conversely. *)
Definition reversed4 (a : CouplingElement.kw.t) : CouplingElement.kw.t :=
  CouplingElement.kw.Build
    (CouplingElement.kw.m_r a) (CouplingElement.kw.m_l a)
    (CouplingElement.kw.Ip_r a) (CouplingElement.kw.Ip_l a)
    (CouplingElement.kw.Id_r a) (CouplingElement.kw.Id_l a)
    (CouplingElement.kw.kt_x a) (CouplingElement.kw.kt_y a)
    (CouplingElement.kw.kr_x a) (CouplingElement.kw.kr_y a)
    (CouplingElement.kw.ct_x a) (CouplingElement.kw.ct_y a)
    (CouplingElement.kw.cr_x a) (CouplingElement.kw.cr_y a)
    (CouplingElement.kw.L a) (CouplingElement.kw.n a)
    (CouplingElement.kw.tag a) (CouplingElement.kw.color a).

Definition reversed6 (a : CouplingElement6DoF.kw.t) : CouplingElement6DoF.kw.t :=
  CouplingElement6DoF.kw.Build
    (CouplingElement6DoF.kw.m_r a) (CouplingElement6DoF.kw.m_l a)
    (CouplingElement6DoF.kw.Ip_r a) (CouplingElement6DoF.kw.Ip_l a)
    (CouplingElement6DoF.kw.Id_r a) (CouplingElement6DoF.kw.Id_l a)
    (CouplingElement6DoF.kw.kt_x a) (CouplingElement6DoF.kw.kt_y a)
    (CouplingElement6DoF.kw.kt_z a)
    (CouplingElement6DoF.kw.kr_x a) (CouplingElement6DoF.kw.kr_y a)
    (CouplingElement6DoF.kw.kr_z a)
    (CouplingElement6DoF.kw.ct_x a) (CouplingElement6DoF.kw.ct_y a)
    (CouplingElement6DoF.kw.ct_z a)
    (CouplingElement6DoF.kw.cr_x a) (CouplingElement6DoF.kw.cr_y a)
    (CouplingElement6DoF.kw.cr_z a)
    (CouplingElement6DoF.kw.L a) (CouplingElement6DoF.kw.n a)
    (CouplingElement6DoF.kw.tag a) (CouplingElement6DoF.kw.color a).

(** The arguments of the 4-DOF element with the parameters of a 6-DOF one:
    the axial and torsional coefficients have no counterpart. *)
Definition bending_part (a : CouplingElement6DoF.kw.t) : CouplingElement.kw.t :=
  CouplingElement.kw.Build
    (CouplingElement6DoF.kw.m_l a) (CouplingElement6DoF.kw.m_r a)
    (CouplingElement6DoF.kw.Ip_l a) (CouplingElement6DoF.kw.Ip_r a)
    (CouplingElement6DoF.kw.Id_l a) (CouplingElement6DoF.kw.Id_r a)
    (CouplingElement6DoF.kw.kt_x a) (CouplingElement6DoF.kw.kt_y a)
    (CouplingElement6DoF.kw.kr_x a) (CouplingElement6DoF.kw.kr_y a)
    (CouplingElement6DoF.kw.ct_x a) (CouplingElement6DoF.kw.ct_y a)
    (CouplingElement6DoF.kw.cr_x a) (CouplingElement6DoF.kw.cr_y a)
    (CouplingElement6DoF.kw.L a) (CouplingElement6DoF.kw.n a)
    (CouplingElement6DoF.kw.tag a) (CouplingElement6DoF.kw.color a).

(** [a[np.ix_(rows, cols)]]: the entries at the chosen rows and columns. *)
Definition ix_ (rows cols : list nat) (a : np.ndarray) : np.ndarray :=
  map (fun i => map (fun j => nth j (nth i a []) 0%float) cols) rows.

(** The indices, among the twelve of the 6-DOF element, of the coordinates
    the 4-DOF element has (x, y, rotation about x, rotation about y at either
    station), and of those it has not (z and rotation about z). *)
Definition bending_indices : list nat := [0; 1; 3; 4; 6; 7; 9; 10].
Definition axial_torsional_indices : list nat := [2; 5; 8; 11].

(** The indices of an element of [d] degrees of freedom per node with the
    stations exchanged: the right node's first. *)
Definition stations_exchanged (d : nat) : list nat := seq d d ++ seq 0 d.

(** The number of channels whose coefficient is not zero. *)
Definition active_channels (ks : Local.channels) : nat :=
  length (filter (fun c => negb (snd c =? 0)%float) ks).

(* ================================================================== *)
(** ** Exceptions, strings of numbers, Python lists that are shared *)

Inductive exception := TypeError | UndefinedUnitError | DimensionalityError.

(** [str(n)] for an integer. *)
Definition str_int (z : Z) : String.string :=
  DecimalString.NilZero.string_of_int (Z.to_int z).

(** A formatted string literal: its parts, one after the other. *)
Definition fstring (parts : list String.string) : String.string :=
  String.concat "" parts.

(** [str(n)] for an element number, which is an integer or [None]. *)
Definition str_number (n : option Z) : String.string :=
  match n with Some z => str_int z | None => "None"%string end.

(** Statements that read and extend lists held by reference, and may raise:
    the heap holds the lists, a reference is an index in it. *)
Module Heap.

Definition heap := list (list float).
Definition ref := nat.
Definition stmt (A : Type) : Type := heap -> exception + (A * heap).

Definition ret {A : Type} (x : A) : stmt A := fun h => inr (x, h).

Definition bind {A B : Type} (c : stmt A) (k : A -> stmt B) : stmt B :=
  fun h => match c h with
           | inl e => inl e
           | inr (x, h') => k x h'
           end.

Definition raise {A : Type} (e : exception) : stmt A := fun _ => inl e.

Definition lift {A : Type} (r : exception + A) : stmt A :=
  fun h => match r with inl e => inl e | inr x => inr (x, h) end.

(** A list display [[x, y, ...]]: a new list object. *)
Definition new (xs : list float) : stmt ref := fun h => inr (length h, h ++ [xs]).

(** The elements of the list a reference points to, as they are now. *)
Definition get (r : ref) : stmt (list float) := fun h => inr (nth r h [], h).

Fixpoint update (r : ref) (xs : list float) (h : heap) : heap :=
  match h, r with
  | [], _ => []
  | _ :: h', 0 => xs :: h'
  | l :: h', S r' => l :: update r' xs h'
  end.

(** [r.extend(xs)] for elements already read: the object grows in place, for
    every name that refers to it. *)
Definition extend (r : ref) (xs : list float) : stmt unit :=
  fun h => inr (tt, update r (nth r h [] ++ xs) h).

(** [r.extend(s)] for a list [s]: the elements [s] has when the call starts
    are appended, also when [s] is [r] itself. *)
Definition extend_from (r s : ref) : stmt unit :=
  bind (get s) (fun xs => extend r xs).

(** [len(r)]. *)
Definition len (r : ref) : stmt nat := fun h => inr (length (nth r h []), h).

(** The outcome of a body run on a heap of its own. *)
Definition run {A : Type} (c : stmt A) : exception + A :=
  match c [] with inl e => inl e | inr (x, _) => inr x end.

End Heap.

Notation "x <- c ;; k" := (Heap.bind c (fun x => k))
  (at level 61, c at next level, right associativity).
Notation "c ;;; k" := (Heap.bind c (fun _ => k))
  (at level 61, right associativity).

(** [x + y] for a float [x] and an attribute that is a float or [None]. *)
Definition add_attribute (x : float) (y : option float) : exception + float :=
  match y with
  | Some v => inr (x + v)%float
  | None => inl TypeError
  end.

(* ================================================================== *)
(** ** __repr__ and _patch *)

(** The attributes [__repr__] and [_patch] read of [self]: the methods of
    [CouplingElement] are also called on instances of [CouplingElement6DoF]. *)
Class Element (S : Type) := {
  attr_L : S -> option float;
  attr_n : S -> option Z;
  attr_color : S -> String.string
}.

#[export] Instance CouplingElement_Element : Element CouplingElement.self := {|
  attr_L := CouplingElement.L;
  attr_n := CouplingElement.n;
  attr_color := CouplingElement.color
|}.

#[export] Instance CouplingElement6DoF_Element : Element CouplingElement6DoF.self := {|
  attr_L := CouplingElement6DoF.L;
  attr_n := CouplingElement6DoF.n;
  attr_color := CouplingElement6DoF.color
|}.

(** The part of [plotly.graph_objects] the element uses. *)
Module go.

(** The keyword arguments of [go.Scatter(...)] as [_patch] gives them. *)
Record Scatter := {
  x : list float;
  y : list float;
  customdata : list (list (option Z));
  text : String.string;
  mode : String.string;
  opacity : float;
  fill : String.string;
  fillcolor : String.string;
  line : float * String.string * String.string;   (* width, color, dash *)
  showlegend : bool;
  name : String.string;
  legendgroup : String.string;
  hoveron : String.string;
  hoverinfo : String.string;
  hovertemplate : String.string;
  hoverlabel : String.string   (* bgcolor *)
}.

(** A figure: its traces, in the order they were added. *)
Definition Figure := list Scatter.

(** [fig.add_trace(t)]. *)
Definition add_trace (fig : Figure) (t : Scatter) : Figure := fig ++ [t].

End go.

Section Methods.

Local Open Scope string_scope.

(** [format(x, spec)] for a float: the builtin [float.__format__]. *)
Variable float_format : float -> String.string -> String.string.

(** [Q_(values, unit).to(units).m]: the magnitudes pint gives, or the
    exception it raises for a unit it does not know or cannot convert to. *)
Variable Q_to : list float -> String.string -> String.string -> exception + list float.

(** [CouplingElement.__repr__]. The format specification [{0}.{5}] is made of
    two nested fields; formatting [None] with a specification that is not
    empty raises TypeError. *)
Definition __repr__ (self : CouplingElement.self) : exception + String.string :=
  let spec := fstring [str_int 0; "."; str_int 5]%string in
  match CouplingElement.L self with
  | None => inl TypeError
  | Some l =>
      inr (fstring ["CouplingElement"; "(L="; float_format l spec; ",";
                    "n="; str_number (CouplingElement.n self); ")"]%string)
  end.

(** [CouplingElement._patch(self, position, check, fig, units)], for any
    [self] with the attributes it reads. The integer [ypos = 0] stands in the
    lists as the float it becomes in the arrays made of them. *)
Definition _patch {S : Type} `{Element S}
  (self : S) (position : float) (check : bool) (fig : go.Figure)
  (units : String.string) : exception + go.Figure :=
  Heap.run (
    let zpos := position in
    let ypos := 0%float in
    let scale_factor := 0.15%float in
    let legend := "Coupling"%string in
    z2 <- Heap.lift (add_attribute zpos (attr_L self)) ;;
    z3 <- Heap.lift (add_attribute zpos (attr_L self)) ;;
    z_upper <- Heap.new [zpos; zpos; z2; z3; zpos] ;;
    y_upper <- Heap.new [ypos; ypos + 2 * scale_factor; ypos + 2 * scale_factor;
                         ypos; ypos]%float ;;
    let z_pos := z_upper in
    Heap.extend_from z_pos z_upper ;;;
    let y_pos := y_upper in
    negated <- Heap.get y_upper ;;
    Heap.extend y_pos (map PrimFloat.opp negated) ;;;
    let customdata := [attr_n self] in
    let hovertemplate :=
      fstring ["Element Number: "; str_number (nth 0 customdata None); "<br>"]%string in
    zs <- Heap.get z_pos ;;
    xs <- Heap.lift (Q_to zs "m" units) ;;
    ys <- Heap.get y_pos ;;
    ys' <- Heap.lift (Q_to ys "m" units) ;;
    points <- Heap.len z_pos ;;
    Heap.ret (go.add_trace fig
      {| go.x := xs;
         go.y := ys';
         go.customdata := repeat customdata points;
         go.text := hovertemplate;
         go.mode := "lines";
         go.opacity := 0.5%float;
         go.fill := "toself";
         go.fillcolor := attr_color self;
         go.line := (1.5%float, "black", "dash");
         go.showlegend := false;
         go.name := legend;
         go.legendgroup := legend;
         go.hoveron := "points+fills";
         go.hoverinfo := "text";
         go.hovertemplate := hovertemplate;
         go.hoverlabel := attr_color self |})).


End Methods.

(** [CouplingElement(1.0, 1.0, 2.0, 2.0, L=0.5, n=3)] and
    [CouplingElement6DoF(1.0, 1.0, 2.0, 2.0, kt_z=7.0, L=0.5, n=3)]. *)
Definition with_length4 : CouplingElement.kw.t :=
  CouplingElement.kw.Build 1 1 2 2 None None
    None None None None  None None None None
    (Some 0.5%float) (Some 3%Z) None None.

Definition with_length6 : CouplingElement6DoF.kw.t :=
  CouplingElement6DoF.kw.Build 1 1 2 2 None None
    None None (Some 7%float) None None None  None None None None None None
    (Some 0.5%float) (Some 3%Z) None None.

(** A unit registry that knows metres only: the magnitudes are unchanged for
    ["m"], any other unit is undefined. *)
Definition metres_only (values : list float) (unit units : String.string)
  : exception + list float :=
  if String.eqb units "m" then inr values else inl UndefinedUnitError.

(** A formatting of floats that shows none of them. *)
Definition format_hidden (v : float) (spec : String.string) : String.string :=
  "?"%string.

(** The figure with the drawing of [with_length4] at [position = 2.0]. *)
Definition drawn4 : go.Figure :=
  match _patch metres_only (CouplingElement.__init__ with_length4)
          2%float true [] "m"%string with
  | inr fig => fig
  | inl _ => []
  end.

(* ================================================================== *)
(** * Facts *)

(** ** Floats: negation, equality, NaN *)

Section FloatFacts.

Lemma SFopp_involutive (s : spec_float) : SFopp (SFopp s) = s.
Proof. destruct s as [b|b| |b m e]; simpl; rewrite ?negb_involutive; reflexivity. Qed.

Lemma opp_involutive (x : float) : (- - x)%float = x.
Proof. apply Prim2SF_inj. rewrite !opp_spec. apply SFopp_involutive. Qed.

Lemma SFcompare_refl (s : spec_float) :
  s <> S754_nan -> SFcompare s s = Some Eq.
Proof.
  destruct s as [b|b| |b m e]; simpl; intros H; try congruence.
  - destruct b; reflexivity.
  - destruct b; rewrite Z.compare_refl, Pos.compare_cont_refl; reflexivity.
Qed.

Lemma SFeqb_opp (s t : spec_float) : SFeqb (SFopp s) (SFopp t) = SFeqb s t.
Proof.
  unfold SFeqb.
  destruct s as [b|b| |b m e], t as [c|c| |c p f]; simpl; try reflexivity;
    try (destruct b; reflexivity); try (destruct c; reflexivity);
    try (destruct b, c; reflexivity).
  destruct b, c; simpl; try reflexivity;
    destruct (Z.compare e f); try reflexivity;
    destruct (Pos.compare_cont Eq m p); reflexivity.
Qed.

(** Negating both sides does not change the outcome of [==]. *)
Lemma eqb_opp (x y : float) : (- x =? - y)%float = (x =? y)%float.
Proof. rewrite !eqb_spec, !opp_spec. apply SFeqb_opp. Qed.

Lemma eqb_refl (x : float) : Py.not_nan x -> (x =? x)%float = true.
Proof. unfold Py.not_nan, is_nan. intros H. apply negb_false_iff in H. exact H. Qed.

(** Floats that compare different are different values. *)
Lemma eqb_false_neq (x y : float) :
  (x =? y)%float = false -> Py.not_nan y -> x <> y.
Proof. intros H Hy E. subst x. rewrite (eqb_refl Hy) in H. discriminate. Qed.

Lemma not_nan_opp (x : float) : Py.not_nan x -> Py.not_nan (- x)%float.
Proof. unfold Py.not_nan, is_nan. rewrite eqb_opp. trivial. Qed.

Lemma eqb_opp_zero (x : float) : (- x =? 0)%float = (x =? 0)%float.
Proof.
  change 0%float with (- (- 0))%float at 1. rewrite eqb_opp.
  rewrite !eqb_spec.
  destruct (Prim2SF x) as [b|b| |b m e]; reflexivity.
Qed.

Lemma not_nan_spec (x : float) : Py.not_nan x <-> Prim2SF x <> S754_nan.
Proof.
  unfold Py.not_nan, is_nan. rewrite eqb_spec, negb_false_iff. split.
  - intros H E. rewrite E in H. discriminate.
  - intros H. unfold SFeqb. rewrite (SFcompare_refl H). reflexivity.
Qed.

(** Rounding a non-negative mantissa never produces NaN. *)
Lemma shr_1_nonneg (mrs : shr_record) :
  (0 <= shr_m mrs)%Z -> (0 <= shr_m (shr_1 mrs))%Z.
Proof.
  destruct mrs as [m r s]; simpl.
  destruct m as [|[p|p|]|[p|p|]]; simpl; lia.
Qed.

Lemma iter_shr_1_nonneg (p : positive) (mrs : shr_record) :
  (0 <= shr_m mrs)%Z -> (0 <= shr_m (iter_pos shr_1 p mrs))%Z.
Proof.
  revert mrs. induction p as [p IH|p IH|]; simpl; intros mrs H.
  - apply IH, IH, shr_1_nonneg, H.
  - apply IH, IH, H.
  - apply shr_1_nonneg, H.
Qed.

Lemma shr_fexp_nonneg (m e : Z) (l : location) :
  (0 <= m)%Z -> (0 <= shr_m (fst (shr_fexp prec emax m e l)))%Z.
Proof.
  intros H. unfold shr_fexp, shr.
  assert (H0 : (0 <= shr_m (shr_record_of_loc m l))%Z)
    by (destruct l as [|[ | | ]]; exact H).
  destruct (fexp prec emax (Zdigits2 m + e) - e)%Z; simpl; trivial.
  apply iter_shr_1_nonneg, H0.
Qed.

Lemma round_nearest_even_nonneg (m : Z) (l : location) :
  (0 <= m)%Z -> (0 <= round_nearest_even m l)%Z.
Proof.
  intros H. destruct l as [|[ | | ]]; simpl; try lia.
  destruct (Z.even m); lia.
Qed.

Lemma binary_round_aux_not_nan (s : bool) (m e : Z) (l : location) :
  (0 <= m)%Z -> binary_round_aux prec emax s m e l <> S754_nan.
Proof.
  intros H. unfold binary_round_aux.
  pose proof (shr_fexp_nonneg e l H) as H1.
  destruct (shr_fexp prec emax m e l) as [mrs' e'] eqn:E1. simpl in H1.
  pose proof (round_nearest_even_nonneg (loc_of_shr_record mrs') H1) as H2.
  pose proof (shr_fexp_nonneg e' loc_Exact H2) as H3.
  destruct (shr_fexp prec emax _ e' loc_Exact) as [mrs'' e''] eqn:E2.
  simpl in H3.
  destruct (shr_m mrs'') as [|p|p]; try discriminate; try lia.
  destruct (e'' <=? emax - prec)%Z; discriminate.
Qed.

Lemma SFdiv_finite_not_nan (x : spec_float) (s : bool) (m : positive) (e : Z) :
  x <> S754_nan -> SFdiv prec emax x (S754_finite s m e) <> S754_nan.
Proof.
  intros H. destruct x as [b|b| |b mx ex]; simpl; try discriminate; try congruence.
  unfold SFdiv_core_binary.
  set (d := Z.min _ _). set (sh := (ex - e - d)%Z).
  set (m' := match sh with Z0 => Zpos mx | Zpos _ => Z.shiftl (Zpos mx) sh | Zneg _ => Z0 end).
  assert (Hm' : (0 <= m')%Z).
  { subst m'. destruct sh; try lia. apply Z.shiftl_nonneg. lia. }
  pose proof (Z.div_pos m' (Zpos m) Hm' eq_refl) as Hq.
  unfold Z.div in Hq.
  destruct (Z.div_eucl m' (Zpos m)) as [q r]. simpl in Hq.
  apply binary_round_aux_not_nan, Hq.
Qed.

(** Halving a number gives a number. *)
Lemma div2_not_nan (x : float) : Py.not_nan x -> Py.not_nan (x / 2)%float.
Proof.
  rewrite !not_nan_spec, div_spec. intros H.
  change (Prim2SF 2) with (S754_finite false 4503599627370496 (-51)).
  apply SFdiv_finite_not_nan, H.
Qed.

End FloatFacts.

Create HintDb numbers discriminated.
#[export] Hint Resolve eqb_refl not_nan_opp div2_not_nan : numbers.

(** ** Arrays given by a function of the indices *)

Section ArrayFacts.

Variables (r c : nat) (f : nat -> nat -> float).

Lemma nth_error_map_seq (A : Type) (g : nat -> A) (n i : nat) :
  nth_error (map g (seq 0 n)) i = if i <? n then Some (g i) else None.
Proof.
  rewrite nth_error_map, nth_error_seq.
  destruct (Nat.ltb_spec i n) as [H|H]; reflexivity.
Qed.

Lemma getitem_fromfunction (i j : nat) :
  np.getitem (np.fromfunction (r, c) f) i j
  = if (i <? r) && (j <? c) then Some (f i j) else None.
Proof.
  unfold np.getitem, np.fromfunction; simpl.
  rewrite nth_error_map_seq.
  destruct (i <? r); simpl; [|reflexivity].
  apply nth_error_map_seq.
Qed.

Lemma has_shape_fromfunction :
  np.has_shape (r, c) (np.fromfunction (r, c) f) = true.
Proof.
  unfold np.has_shape, np.fromfunction; simpl.
  rewrite length_map, length_seq, Nat.eqb_refl; simpl.
  apply forallb_forall. intros row H. apply in_map_iff in H.
  destruct H as [i [<- _]]. rewrite length_map, length_seq. apply Nat.eqb_refl.
Qed.

Lemma shape_fromfunction : 0 < r -> np.shape (np.fromfunction (r, c) f) = (r, c).
Proof.
  intros H. unfold np.shape, np.fromfunction; simpl.
  rewrite length_map, length_seq. destruct r as [|r']; [lia|].
  simpl. rewrite length_map, length_seq. reflexivity.
Qed.

Lemma nth_fromfunction (i j : nat) :
  i < r -> j < c -> nth j (nth i (np.fromfunction (r, c) f) []) 0%float = f i j.
Proof.
  intros Hi Hj.
  pose proof (getitem_fromfunction i j) as H.
  apply Nat.ltb_lt in Hi, Hj. rewrite Hi, Hj in H. simpl in H.
  unfold np.getitem in H.
  destruct (nth_error (np.fromfunction (r, c) f) i) as [row|] eqn:E; [|discriminate].
  rewrite (nth_error_nth _ _ [] E). apply nth_error_nth, H.
Qed.

Lemma T_fromfunction :
  0 < r -> np.T (np.fromfunction (r, c) f) = np.fromfunction (c, r) (fun j i => f i j).
Proof.
  intros H. unfold np.T. rewrite (shape_fromfunction H).
  unfold np.fromfunction at 2; simpl.
  apply map_ext_in. intros j Hj. apply map_ext_in. intros i Hi.
  apply in_seq in Hi, Hj. apply nth_fromfunction; lia.
Qed.

Lemma negative_fromfunction :
  np.negative (np.fromfunction (r, c) f) = np.fromfunction (r, c) (fun i j => (- f i j)%float).
Proof.
  unfold np.negative, np.fromfunction; simpl.
  rewrite map_map. apply map_ext. intros i. apply map_map.
Qed.

Lemma all2_map_seq (A : Type) (p : A -> A -> bool) (g h : nat -> A) (n : nat) :
  (forall i, i < n -> p (g i) (h i) = true) ->
  np.all2 p (map g (seq 0 n)) (map h (seq 0 n)) = true.
Proof.
  intros H.
  assert (G : forall k s, (forall i, s <= i < s + k -> p (g i) (h i) = true) ->
            np.all2 p (map g (seq s k)) (map h (seq s k)) = true).
  { induction k as [|k IH]; intros s Hs; simpl; [reflexivity|].
    rewrite Hs by lia. simpl. apply IH. intros i Hi. apply Hs. lia. }
  apply G. intros i Hi. apply H. lia.
Qed.

Lemma array_equal_fromfunction (g : nat -> nat -> float) :
  (forall i j, i < r -> j < c -> (f i j =? g i j)%float = true) ->
  np.array_equal (np.fromfunction (r, c) f) (np.fromfunction (r, c) g) = true.
Proof.
  intros H. unfold np.array_equal, np.fromfunction; simpl.
  apply all2_map_seq. intros i Hi. apply all2_map_seq. intros j Hj. auto.
Qed.

End ArrayFacts.

(** ** Matrices given coordinate-wise *)

Section LocalFacts.

Import Local.

Variable dofs : list dof.

Lemma coordinate_in_range (i : nat) :
  i < 2 * length dofs -> exists p, coordinate dofs i = Some p.
Proof.
  intros H. unfold coordinate.
  destruct (Nat.ltb_spec i (length dofs)) as [Hi|Hi].
  - destruct (nth_error dofs i) as [d|] eqn:E; [eexists; reflexivity|].
    apply nth_error_None in E. lia.
  - destruct (nth_error dofs (i - length dofs)) as [d|] eqn:E; [eexists; reflexivity|].
    apply nth_error_None in E. lia.
Qed.

Lemma coordinate_out_of_range (i : nat) :
  2 * length dofs <= i -> coordinate dofs i = None.
Proof.
  intros H. unfold coordinate.
  destruct (Nat.ltb_spec i (length dofs)) as [Hi|Hi]; [lia|].
  assert (E : nth_error dofs (i - length dofs) = None) by (apply nth_error_None; lia).
  rewrite E. reflexivity.
Qed.

Lemma getitem_by_coordinates (f : coord -> coord -> float) (i j : nat) :
  np.getitem (by_coordinates dofs f) i j = entry dofs f i j.
Proof.
  unfold by_coordinates. rewrite getitem_fromfunction. unfold entry.
  destruct (Nat.ltb_spec i (2 * length dofs)) as [Hi|Hi];
    destruct (Nat.ltb_spec j (2 * length dofs)) as [Hj|Hj]; cbn [andb].
  - destruct (coordinate_in_range Hi) as [p ->].
    destruct (coordinate_in_range Hj) as [q ->]. reflexivity.
  - rewrite (coordinate_out_of_range Hj).
    destruct (coordinate dofs i); reflexivity.
  - rewrite (coordinate_out_of_range Hi). reflexivity.
  - rewrite (coordinate_out_of_range Hi). reflexivity.
Qed.

Lemma has_shape_by_coordinates (f : coord -> coord -> float) :
  np.has_shape (2 * length dofs, 2 * length dofs) (by_coordinates dofs f) = true.
Proof. apply has_shape_fromfunction. Qed.

Hypothesis some_dof : dofs <> [].

Lemma rows_by_coordinates : 0 < 2 * length dofs.
Proof. destruct dofs; [congruence|simpl; lia]. Qed.

(** A matrix whose entries between [p] and [q] and between [q] and [p]
    compare equal equals its transpose. *)
Lemma symmetric_by_coordinates (f : coord -> coord -> float) :
  (forall p q, (f p q =? f q p)%float = true) ->
  np.array_equal (by_coordinates dofs f) (np.T (by_coordinates dofs f)) = true.
Proof.
  intros H. unfold by_coordinates.
  rewrite T_fromfunction by apply rows_by_coordinates.
  apply array_equal_fromfunction. intros i j _ _. unfold entry.
  destruct (coordinate dofs i) as [p|], (coordinate dofs j) as [q|];
    try reflexivity. apply H.
Qed.

Lemma skew_by_coordinates (f : coord -> coord -> float) :
  (forall p q, (f p q =? - f q p)%float = true) ->
  np.array_equal (by_coordinates dofs f)
    (np.negative (np.T (by_coordinates dofs f))) = true.
Proof.
  intros H. unfold by_coordinates.
  rewrite T_fromfunction by apply rows_by_coordinates.
  rewrite negative_fromfunction.
  apply array_equal_fromfunction. intros i j _ _. unfold entry.
  destruct (coordinate dofs i) as [p|], (coordinate dofs j) as [q|];
    try reflexivity. apply H.
Qed.

End LocalFacts.

Section EntryFacts.

Import Local.

Lemma station_eqb_sym (s t : station) : station_eqb s t = station_eqb t s.
Proof. destruct s, t; reflexivity. Qed.

Lemma dof_eqb_sym (d d' : dof) : dof_eqb d d' = dof_eqb d' d.
Proof. destruct d, d'; reflexivity. Qed.

Lemma station_eqb_eq (s t : station) : station_eqb s t = true <-> s = t.
Proof. destruct s, t; simpl; split; congruence. Qed.

Lemma dof_eqb_eq (d d' : dof) : dof_eqb d d' = true <-> d = d'.
Proof. destruct d, d'; simpl; split; congruence. Qed.

Lemma mass_entry_sym (I : inertia) (p q : coord) :
  inertia_numbers I -> (mass_entry I p q =? mass_entry I q p)%float = true.
Proof.
  intros H. unfold mass_entry.
  rewrite (station_eqb_sym (fst q)), (dof_eqb_sym (snd q)).
  destruct (station_eqb (fst p) (fst q)) eqn:Es; simpl; [|reflexivity].
  destruct (dof_eqb (snd p) (snd q)) eqn:Ed; simpl; [|reflexivity].
  apply station_eqb_eq in Es. apply dof_eqb_eq in Ed. rewrite <- Es, <- Ed.
  destruct (H (fst p)) as (Hm & Hd & Hp).
  destruct (snd p); auto with numbers.
Qed.

Lemma spring_entry_sym (ks : channels) (p q : coord) :
  channels_numbers ks -> (spring_entry ks p q =? spring_entry ks q p)%float = true.
Proof.
  intros H. unfold spring_entry.
  rewrite (dof_eqb_sym (snd q)).
  destruct (dof_eqb (snd p) (snd q)) eqn:Ed; [|reflexivity].
  apply dof_eqb_eq in Ed. rewrite <- Ed.
  destruct (coefficient ks (snd p)) as [k|] eqn:Ek; [|reflexivity].
  pose proof (H _ _ Ek) as Hk.
  destruct (fst p), (fst q); simpl; auto with numbers.
Qed.

Lemma gyro_entry_skew (I : inertia) (p q : coord) :
  inertia_numbers I -> (gyro_entry I p q =? - gyro_entry I q p)%float = true.
Proof.
  intros H. unfold gyro_entry.
  rewrite (station_eqb_sym (fst q)).
  destruct (station_eqb (fst p) (fst q)) eqn:Es; [|reflexivity].
  apply station_eqb_eq in Es. rewrite <- Es.
  destruct (H (fst p)) as (_ & _ & Hp).
  destruct (snd p), (snd q); try reflexivity.
  - rewrite opp_involutive. auto with numbers.
  - auto with numbers.
Qed.

End EntryFacts.

(** ** The matrices of the code, read coordinate-wise *)

Section Refinement.

Import Local.

Lemma M4_by_coordinates (e : CouplingElement.self) :
  CouplingElement.M e = by_coordinates dofs4 (mass_entry (inertia4 e)).
Proof. reflexivity. Qed.

Lemma K4_by_coordinates (e : CouplingElement.self) :
  CouplingElement.K e = by_coordinates dofs4 (spring_entry (stiffness4 e)).
Proof. reflexivity. Qed.

Lemma C4_by_coordinates (e : CouplingElement.self) :
  CouplingElement.C e = by_coordinates dofs4 (spring_entry (damping4 e)).
Proof. reflexivity. Qed.

Lemma G4_by_coordinates (e : CouplingElement.self) :
  CouplingElement.G e = by_coordinates dofs4 (gyro_entry (inertia4 e)).
Proof. reflexivity. Qed.

Lemma M6_by_coordinates (e : CouplingElement6DoF.self) :
  CouplingElement6DoF.M e = by_coordinates dofs6 (mass_entry (inertia6 e)).
Proof. reflexivity. Qed.

Lemma K6_by_coordinates (e : CouplingElement6DoF.self) :
  CouplingElement6DoF.K e = by_coordinates dofs6 (spring_entry (stiffness6 e)).
Proof. reflexivity. Qed.

Lemma C6_by_coordinates (e : CouplingElement6DoF.self) :
  CouplingElement6DoF.C e = by_coordinates dofs6 (spring_entry (damping6 e)).
Proof. reflexivity. Qed.

Lemma G6_by_coordinates (e : CouplingElement6DoF.self) :
  CouplingElement6DoF.G e = by_coordinates dofs6 (gyro_entry (inertia6 e)).
Proof. reflexivity. Qed.

Lemma dofs4_some : dofs4 <> [].
Proof. discriminate. Qed.

Lemma dofs6_some : dofs6 <> [].
Proof. discriminate. Qed.

End Refinement.

(** ** Valid arguments give elements whose parameters are numbers *)

Section ValidFacts.

Lemma default_not_nan (o : option float) (Ip : float) :
  opt_not_nan o -> Py.not_nan Ip ->
  Py.not_nan (if Py.bool (optional o) then Py.float (optional o) else (Ip / 2)%float).
Proof.
  intros Ho HIp. destruct (Py.bool (optional o)) eqn:E.
  - destruct o as [x|]; [exact Ho|reflexivity].
  - apply div2_not_nan, HIp.
Qed.

Lemma optional_not_nan (o : option float) :
  opt_not_nan o -> Py.not_nan (Py.float (optional o)).
Proof. destruct o as [x|]; [trivial|reflexivity]. Qed.

Ltac split_Forall :=
  repeat match goal with
  | H : _ /\ _ |- _ => destruct H
  | H : Forall _ (_ :: _) |- _ => inversion H; subst; clear H
  | H : Forall _ [] |- _ => clear H
  end.

Ltac channel_cases :=
  intros d k; simpl;
  repeat match goal with
  | |- context [Local.dof_eqb d ?d'] => destruct (Local.dof_eqb d d')
  end;
  intros E; inversion E; subst; apply optional_not_nan; assumption.

Lemma valid4_inertia (a : CouplingElement.kw.t) :
  valid4 a -> inertia_numbers (inertia4 (CouplingElement.__init__ a)).
Proof.
  unfold valid4. intros H. split_Forall.
  intros [|]; simpl; repeat split; try assumption; apply default_not_nan; assumption.
Qed.

Lemma valid4_stiffness (a : CouplingElement.kw.t) :
  valid4 a -> channels_numbers (stiffness4 (CouplingElement.__init__ a)).
Proof. unfold valid4. intros H. split_Forall. channel_cases. Qed.

Lemma valid4_damping (a : CouplingElement.kw.t) :
  valid4 a -> channels_numbers (damping4 (CouplingElement.__init__ a)).
Proof. unfold valid4. intros H. split_Forall. channel_cases. Qed.

Lemma valid6_inertia (a : CouplingElement6DoF.kw.t) :
  valid6 a -> inertia_numbers (inertia6 (CouplingElement6DoF.__init__ a)).
Proof.
  unfold valid6. intros H. split_Forall.
  intros [|]; simpl; repeat split; try assumption; apply default_not_nan; assumption.
Qed.

Lemma valid6_stiffness (a : CouplingElement6DoF.kw.t) :
  valid6 a -> channels_numbers (stiffness6 (CouplingElement6DoF.__init__ a)).
Proof. unfold valid6. intros H. split_Forall. channel_cases. Qed.

Lemma valid6_damping (a : CouplingElement6DoF.kw.t) :
  valid6 a -> channels_numbers (damping6 (CouplingElement6DoF.__init__ a)).
Proof. unfold valid6. intros H. split_Forall. channel_cases. Qed.

End ValidFacts.

(** ** Entries of the matrices of the code *)

Lemma getitem_M4 (e : CouplingElement.self) (i j : nat) :
  np.getitem (CouplingElement.M e) i j
  = Local.entry Local.dofs4 (Local.mass_entry (inertia4 e)) i j.
Proof. rewrite M4_by_coordinates. apply getitem_by_coordinates. Qed.

Lemma getitem_K4 (e : CouplingElement.self) (i j : nat) :
  np.getitem (CouplingElement.K e) i j
  = Local.entry Local.dofs4 (Local.spring_entry (stiffness4 e)) i j.
Proof. rewrite K4_by_coordinates. apply getitem_by_coordinates. Qed.

Lemma getitem_C4 (e : CouplingElement.self) (i j : nat) :
  np.getitem (CouplingElement.C e) i j
  = Local.entry Local.dofs4 (Local.spring_entry (damping4 e)) i j.
Proof. rewrite C4_by_coordinates. apply getitem_by_coordinates. Qed.

Lemma getitem_G4 (e : CouplingElement.self) (i j : nat) :
  np.getitem (CouplingElement.G e) i j
  = Local.entry Local.dofs4 (Local.gyro_entry (inertia4 e)) i j.
Proof. rewrite G4_by_coordinates. apply getitem_by_coordinates. Qed.

Lemma getitem_M6 (e : CouplingElement6DoF.self) (i j : nat) :
  np.getitem (CouplingElement6DoF.M e) i j
  = Local.entry Local.dofs6 (Local.mass_entry (inertia6 e)) i j.
Proof. rewrite M6_by_coordinates. apply getitem_by_coordinates. Qed.

Lemma getitem_K6 (e : CouplingElement6DoF.self) (i j : nat) :
  np.getitem (CouplingElement6DoF.K e) i j
  = Local.entry Local.dofs6 (Local.spring_entry (stiffness6 e)) i j.
Proof. rewrite K6_by_coordinates. apply getitem_by_coordinates. Qed.

Lemma getitem_C6 (e : CouplingElement6DoF.self) (i j : nat) :
  np.getitem (CouplingElement6DoF.C e) i j
  = Local.entry Local.dofs6 (Local.spring_entry (damping6 e)) i j.
Proof. rewrite C6_by_coordinates. apply getitem_by_coordinates. Qed.

Lemma getitem_G6 (e : CouplingElement6DoF.self) (i j : nat) :
  np.getitem (CouplingElement6DoF.G e) i j
  = Local.entry Local.dofs6 (Local.gyro_entry (inertia6 e)) i j.
Proof. rewrite G6_by_coordinates. apply getitem_by_coordinates. Qed.

Lemma unset_or_zero_optional (o : option float) :
  unset_or_zero o = (optional o =? 0)%float.
Proof. destruct o; reflexivity. Qed.

(** ** One channel set to zero *)

Section ChannelFacts.

Import Local.

Lemma eqb_zero_right (x z : float) :
  (z =? 0)%float = true -> (x =? z)%float = (x =? 0)%float.
Proof.
  rewrite !eqb_spec. change (Prim2SF 0) with (S754_zero false).
  destruct (Prim2SF z) as [b|b| |b m e]; try discriminate;
    try (destruct b; discriminate).
  intros _. destruct (Prim2SF x) as [c|c| |c m e]; reflexivity.
Qed.

Lemma dof_eqb_refl (d : dof) : dof_eqb d d = true.
Proof. destruct d; reflexivity. Qed.

Lemma dof_eqb_neq (d d' : dof) : dof_eqb d d' = false <-> d <> d'.
Proof. destruct d, d'; simpl; split; congruence. Qed.

(** The direct sum, entry by entry: the coefficient between a coordinate and
    itself, its opposite between the two stations in one direction, zero
    between different directions. *)
Lemma spring_entry_cases (ks : Local.channels) (p q : Local.coord) (k : float) :
  Local.coefficient ks (snd p) = Some k ->
  Local.spring_entry ks p q
  = if Local.dof_eqb (snd p) (snd q)
    then if Local.station_eqb (fst p) (fst q) then k else (- k)%float
    else 0%float.
Proof.
  intros H. unfold Local.spring_entry. rewrite H.
  destruct (Local.dof_eqb (snd p) (snd q)); [|reflexivity].
  destruct (fst p), (fst q); reflexivity.
Qed.

Lemma spring_entry_zeroed (d : dof) (ks ks' : channels) (p q : coord) :
  zeroes_channel d ks ks' ->
  if dof_eqb (snd p) d && dof_eqb (snd q) d
  then (spring_entry ks p q =? spring_entry ks' p q)%float = false
       /\ (spring_entry ks' p q =? 0)%float = true
  else spring_entry ks p q = spring_entry ks' p q.
Proof.
  intros [Hothers (k & z & Hk & Hz & Hz0 & Hkz)].
  destruct p as [s1 d1], q as [s2 d2]; unfold spring_entry; cbn [fst snd].
  destruct (dof_eqb d1 d) eqn:E1, (dof_eqb d2 d) eqn:E2; cbn [andb].
  - apply dof_eqb_eq in E1, E2. subst d1 d2.
    rewrite dof_eqb_refl, Hk, Hz.
    destruct s1, s2; cbn; rewrite ?eqb_opp, ?eqb_opp_zero; auto.
  - apply dof_eqb_eq in E1. apply dof_eqb_neq in E2. subst d1.
    assert (E : dof_eqb d d2 = false) by (apply dof_eqb_neq; congruence).
    rewrite E. reflexivity.
  - apply dof_eqb_eq in E2. apply dof_eqb_neq in E1. subst d2.
    assert (E : dof_eqb d1 d = false) by (apply dof_eqb_neq; congruence).
    rewrite E. reflexivity.
  - apply dof_eqb_neq in E1.
    destruct (dof_eqb d1 d2); [|reflexivity].
    rewrite (Hothers d1 E1). reflexivity.
Qed.

Lemma mem_channel_positions4 (d : dof) (i j : nat) :
  mem_position (i, j) (channel_positions dofs4 d)
  = match coordinate dofs4 i, coordinate dofs4 j with
    | Some p, Some q => dof_eqb (snd p) d && dof_eqb (snd q) d
    | _, _ => false
    end.
Proof.
  destruct d;
    do 9 (try (destruct i as [|i])); do 9 (try (destruct j as [|j])); reflexivity.
Qed.

Lemma mem_channel_positions6 (d : dof) (i j : nat) :
  mem_position (i, j) (channel_positions dofs6 d)
  = match coordinate dofs6 i, coordinate dofs6 j with
    | Some p, Some q => dof_eqb (snd p) d && dof_eqb (snd q) d
    | _, _ => false
    end.
Proof.
  destruct d;
    do 13 (try (destruct i as [|i])); do 13 (try (destruct j as [|j])); reflexivity.
Qed.

(** Two matrices of channels, one with a channel set to zero. *)
Lemma by_coordinates_zeroed (dofs : list dof) (d : dof) (ks ks' : channels) :
  (forall i j,
     mem_position (i, j) (channel_positions dofs d)
     = match coordinate dofs i, coordinate dofs j with
       | Some p, Some q => dof_eqb (snd p) d && dof_eqb (snd q) d
       | _, _ => false
       end) ->
  zeroes_channel d ks ks' ->
  zeroed_exactly_at (channel_positions dofs d)
    (by_coordinates dofs (spring_entry ks)) (by_coordinates dofs (spring_entry ks')).
Proof.
  intros Hmem Hz i j. rewrite Hmem, !getitem_by_coordinates. unfold entry.
  destruct (coordinate dofs i) as [p|]; [|reflexivity].
  destruct (coordinate dofs j) as [q|]; [|reflexivity].
  pose proof (spring_entry_zeroed p q Hz) as H.
  destruct (dof_eqb (snd p) d && dof_eqb (snd q) d).
  - eexists _, _. split; [reflexivity|]. split; [reflexivity|]. exact H.
  - rewrite H. reflexivity.
Qed.

Lemma channel_positions4_four (d : dof) :
  In d dofs4 ->
  length (channel_positions dofs4 d) = 4 /\ NoDup (channel_positions dofs4 d).
Proof.
  intros H. destruct d; simpl in H;
    try (exfalso; intuition discriminate);
    (split; [reflexivity|]);
    repeat constructor; simpl; intuition discriminate.
Qed.

Lemma channel_positions6_four (d : dof) :
  In d dofs6 ->
  length (channel_positions dofs6 d) = 4 /\ NoDup (channel_positions dofs6 d).
Proof.
  intros _. destruct d;
    (split; [reflexivity|]);
    repeat constructor; simpl; intuition discriminate.
Qed.

End ChannelFacts.

Lemma default_diametral_of (o : option float) (Ip : float) :
  (if Py.bool (optional o) then Py.float (optional o) else (Ip / 2)%float)
  = diametral_of o Ip.
Proof.
  unfold diametral_of, Py.bool, Py.float. rewrite unset_or_zero_optional.
  destruct (optional o =? 0)%float; reflexivity.
Qed.

(** ** The numpy model on small arrays *)

Example T_2x3 :
  np.T [[1; 2; 3]; [4; 5; 6]]%float = [[1; 4]; [2; 5]; [3; 6]]%float.
Proof. reflexivity. Qed.

Example setitem_upto_from :
  np.setitem (np.zeros (3, 3)) (np.upto 2) (np.from 1) [[1; 2]; [3; 4]]%float
  = [[0; 1; 2]; [0; 3; 4]; [0; 0; 0]]%float.
Proof. reflexivity. Qed.

Example array_equal_signed_zeros :
  np.array_equal [[0; 1]]%float [[-0; 1]]%float = true
  /\ np.array_equal [[nan]]%float [[nan]]%float = false
  /\ np.array_equal [[0; 1]]%float [[0; 1]; [0; 0]]%float = false.
Proof. repeat split. Qed.

(** The blocks the code assigns have the shape of the slices they go to. *)
Lemma block_shapes_fit :
  np.block_shape (np.zeros (8, 8)) (np.upto 4) (np.upto 4) = (4, 4)
  /\ np.block_shape (np.zeros (8, 8)) (np.from 4) (np.from 4) = (4, 4)
  /\ np.block_shape (np.zeros (12, 12)) (np.upto 6) (np.upto 6) = (6, 6)
  /\ np.block_shape (np.zeros (12, 12)) (np.from 6) (np.from 6) = (6, 6).
Proof. repeat split. Qed.

(** ** Indices and coordinates *)

Lemma coordinate_index4 (p : Local.coord) :
  In (snd p) Local.dofs4 ->
  exists i, Local.index Local.dofs4 p = Some i /\ Local.coordinate Local.dofs4 i = Some p.
Proof.
  destruct p as [[|] []]; simpl; intros H;
    try (exfalso; intuition discriminate); eexists; split; reflexivity.
Qed.

Lemma coordinate_index6 (p : Local.coord) :
  exists i, Local.index Local.dofs6 p = Some i /\ Local.coordinate Local.dofs6 i = Some p.
Proof. destruct p as [[|] []]; eexists; split; reflexivity. Qed.

(** ** Transposes that are the same array *)

Section IdenticalTransposes.

Import Local.

Lemma transpose_by_coordinates (dofs : list dof) (f : coord -> coord -> float) :
  dofs <> [] -> (forall p q, f q p = f p q) ->
  np.T (by_coordinates dofs f) = by_coordinates dofs f.
Proof.
  intros Hd H. unfold by_coordinates.
  rewrite T_fromfunction by (apply rows_by_coordinates, Hd).
  unfold np.fromfunction. apply map_ext. intros i. apply map_ext. intros j.
  unfold entry.
  destruct (coordinate dofs i) as [p|], (coordinate dofs j) as [q|];
    try reflexivity. rewrite H. reflexivity.
Qed.

Lemma mass_entry_comm (I : inertia) (p q : coord) :
  mass_entry I q p = mass_entry I p q.
Proof.
  unfold mass_entry. rewrite (station_eqb_sym (fst q)), (dof_eqb_sym (snd q)).
  destruct (station_eqb (fst p) (fst q)) eqn:Es; simpl; [|reflexivity].
  destruct (dof_eqb (snd p) (snd q)) eqn:Ed; simpl; [|reflexivity].
  apply station_eqb_eq in Es. apply dof_eqb_eq in Ed. rewrite Es, Ed. reflexivity.
Qed.

Lemma spring_entry_comm (ks : channels) (p q : coord) :
  spring_entry ks q p = spring_entry ks p q.
Proof.
  unfold spring_entry. rewrite (dof_eqb_sym (snd q)).
  destruct (dof_eqb (snd p) (snd q)) eqn:Ed; [|reflexivity].
  apply dof_eqb_eq in Ed. rewrite Ed.
  destruct (coefficient ks (snd q)); [|reflexivity].
  destruct (fst p), (fst q); reflexivity.
Qed.

(** Whatever the parameters, NaN included, M, K and C are the very arrays
    their transposes are. The negated transpose of G is not G itself: where
    G has [0.0] it has [-0.0], which is why the symmetry of G is a matter of
    [==]. *)
Lemma transposes_identical
  (e4 : CouplingElement.self) (e6 : CouplingElement6DoF.self) :
  (np.T (CouplingElement.M e4) = CouplingElement.M e4
   /\ np.T (CouplingElement.K e4) = CouplingElement.K e4
   /\ np.T (CouplingElement.C e4) = CouplingElement.C e4)
  /\ (np.T (CouplingElement6DoF.M e6) = CouplingElement6DoF.M e6
      /\ np.T (CouplingElement6DoF.K e6) = CouplingElement6DoF.K e6
      /\ np.T (CouplingElement6DoF.C e6) = CouplingElement6DoF.C e6).
Proof.
  rewrite M4_by_coordinates, K4_by_coordinates, C4_by_coordinates,
    M6_by_coordinates, K6_by_coordinates, C6_by_coordinates.
  repeat split; apply transpose_by_coordinates;
    auto using dofs4_some, dofs6_some, mass_entry_comm, spring_entry_comm.
Qed.

Example negated_transpose_of_G :
  let G := CouplingElement.G (CouplingElement.__init__ unit_masses4) in
  np.getitem (np.negative (np.T G)) 0 0 = Some (-0)%float
  /\ np.getitem G 0 0 = Some 0%float
  /\ np.array_equal G (np.negative (np.T G)) = true.
Proof. repeat split. Qed.

End IdenticalTransposes.

(** ** Defaults of the diametral inertia *)

Lemma rebuilt_diametral (o : option float) (Ip : float) :
  let Id := if Py.bool (optional o) then Py.float (optional o) else (Ip / 2)%float in
  (if Py.bool (optional (Some Id)) then Py.float (optional (Some Id)) else (Ip / 2)%float)
  = Id.
Proof.
  simpl. unfold Py.float.
  destruct (Py.bool (optional o)) eqn:E.
  - rewrite E. reflexivity.
  - destruct (Py.bool (Ip / 2)); reflexivity.
Qed.

Lemma default_never_zero (o : option float) (Ip : float) :
  (Ip / 2 =? 0)%float = false ->
  ((if Py.bool (optional o) then Py.float (optional o) else (Ip / 2)%float) =? 0)%float
  = false.
Proof.
  intros H. unfold Py.bool, Py.float.
  destruct (optional o =? 0)%float eqn:E; simpl; assumption.
Qed.


(** ** Strings that tell element numbers apart *)

Section NumberStrings.

Local Open Scope string_scope.

Lemma append_cancel_l (p s s' : String.string) :
  String.append p s = String.append p s' -> s = s'.
Proof. induction p as [|c p IH]; simpl; intros H; [exact H|]. injection H as H. auto. Qed.

Lemma length_append (s t : String.string) :
  String.length (String.append s t) = String.length s + String.length t.
Proof. induction s as [|c s IH]; simpl; [reflexivity|]. rewrite IH. reflexivity. Qed.

Lemma append_cancel_r (t s s' : String.string) :
  String.append s t = String.append s' t -> s = s'.
Proof.
  revert s'. induction s as [|c s IH]; intros [|c' s'] H; simpl in H.
  - reflexivity.
  - apply (f_equal String.length) in H. simpl in H. rewrite length_append in H. lia.
  - apply (f_equal String.length) in H. simpl in H. rewrite length_append in H. lia.
  - injection H as -> H. f_equal. apply IH, H.
Qed.

Lemma to_int_normal (z : Z) : Z.to_int z = Decimal.norm (Z.to_int z).
Proof. rewrite <- DecimalZ.to_of, DecimalZ.of_to. reflexivity. Qed.

Lemma str_int_parses (z : Z) :
  DecimalString.NilZero.int_of_string (str_int z) = Some (Z.to_int z).
Proof.
  unfold str_int. apply DecimalString.NilZero.isi.
  - intros E. pose proof (to_int_normal z) as N. rewrite E in N. discriminate.
  - intros E. pose proof (to_int_normal z) as N. rewrite E in N. discriminate.
Qed.

Lemma str_number_inj (n n' : option Z) : str_number n = str_number n' -> n = n'.
Proof.
  destruct n as [z|], n' as [z'|]; simpl; intros H.
  - f_equal. apply DecimalZ.to_int_inj.
    pose proof (str_int_parses z) as P. rewrite H, str_int_parses in P. congruence.
  - pose proof (str_int_parses z) as P. rewrite H in P. discriminate.
  - pose proof (str_int_parses z') as P. rewrite <- H in P. discriminate.
  - reflexivity.
Qed.

End NumberStrings.

(** ** The methods that show an element *)

Section MethodFacts.

Local Open Scope string_scope.

Variable Q_to : list float -> String.string -> String.string -> exception + list float.

(** The points [_patch] hands to the unit conversion, for an element of
    length [l] drawn at [position]. *)
Lemma patch_unfolded (S : Type) (E : Element S) (self : S)
  (position : float) (check : bool) (fig : go.Figure) (units : String.string) :
  _patch Q_to self position check fig units
  = match attr_L self with
    | None => inl TypeError
    | Some l =>
        let z := (position + l)%float in
        let h := (0 + 2 * 0.15)%float in
        match Q_to [position; position; z; z; position;
                    position; position; z; z; position] "m" units with
        | inl e => inl e
        | inr xs =>
            match Q_to [0; h; h; 0; 0; - 0; - h; - h; - 0; - 0]%float "m" units with
            | inl e => inl e
            | inr ys =>
                let hover := fstring ["Element Number: "; str_number (attr_n self); "<br>"] in
                inr (fig ++ [{| go.x := xs; go.y := ys;
                               go.customdata := repeat [attr_n self] 10;
                               go.text := hover; go.mode := "lines";
                               go.opacity := 0.5%float; go.fill := "toself";
                               go.fillcolor := attr_color self;
                               go.line := (1.5%float, "black", "dash");
                               go.showlegend := false; go.name := "Coupling";
                               go.legendgroup := "Coupling";
                               go.hoveron := "points+fills"; go.hoverinfo := "text";
                               go.hovertemplate := hover;
                               go.hoverlabel := attr_color self |}])
            end
        end
    end.
Proof.
  unfold _patch, Heap.run.
  destruct (attr_L self) as [l|]; [|reflexivity].
  cbn -[PrimFloat.add PrimFloat.mul PrimFloat.opp fstring str_number].
  destruct (Q_to _ "m" units) as [e|xs]; [reflexivity|].
  cbn -[PrimFloat.add PrimFloat.mul PrimFloat.opp fstring str_number].
  destruct (Q_to _ "m" units) as [e|ys]; reflexivity.
Qed.

Lemma hover_inj (s s' : String.string) :
  fstring ["Element Number: "; s; "<br>"] = fstring ["Element Number: "; s'; "<br>"] ->
  s = s'.
Proof.
  unfold fstring. cbn [String.concat]. intros H.
  apply append_cancel_l in H. apply append_cancel_l in H.
  apply append_cancel_r in H. exact H.
Qed.

Lemma repr_inj (f s s' : String.string) :
  fstring ["CouplingElement"; "(L="; f; ","; "n="; s; ")"]
  = fstring ["CouplingElement"; "(L="; f; ","; "n="; s'; ")"] ->
  s = s'.
Proof.
  unfold fstring. cbn [String.concat]. intros H.
  do 10 apply append_cancel_l in H.
  apply append_cancel_r in H. exact H.
Qed.

End MethodFacts.

(* ================================================================== *)
(** * The properties of the specification *)

Ltac by_computation :=
  repeat split; repeat constructor; try reflexivity.

(** C1. Symmetry: for every valid parameter set and for both variants, the
    matrices returned by M(), K() and C() equal their own transpose, and the
    matrix returned by G() equals the negative of its own transpose. Equality
    of arrays is numpy's: same shape and [==] at every entry. *)
Theorem matrix_symmetry (a4 : CouplingElement.kw.t) (a6 : CouplingElement6DoF.kw.t) :
  valid4 a4 -> valid6 a6 ->
  let e4 := CouplingElement.__init__ a4 in
  let e6 := CouplingElement6DoF.__init__ a6 in
  (np.array_equal (CouplingElement.M e4) (np.T (CouplingElement.M e4)) = true
   /\ np.array_equal (CouplingElement.K e4) (np.T (CouplingElement.K e4)) = true
   /\ np.array_equal (CouplingElement.C e4) (np.T (CouplingElement.C e4)) = true
   /\ np.array_equal (CouplingElement.G e4)
        (np.negative (np.T (CouplingElement.G e4))) = true)
  /\
  (np.array_equal (CouplingElement6DoF.M e6) (np.T (CouplingElement6DoF.M e6)) = true
   /\ np.array_equal (CouplingElement6DoF.K e6) (np.T (CouplingElement6DoF.K e6)) = true
   /\ np.array_equal (CouplingElement6DoF.C e6) (np.T (CouplingElement6DoF.C e6)) = true
   /\ np.array_equal (CouplingElement6DoF.G e6)
        (np.negative (np.T (CouplingElement6DoF.G e6))) = true).
Proof.
  intros H4 H6 e4 e6.
  pose proof (valid4_inertia H4) as I4. pose proof (valid4_stiffness H4) as S4.
  pose proof (valid4_damping H4) as D4.
  pose proof (valid6_inertia H6) as I6. pose proof (valid6_stiffness H6) as S6.
  pose proof (valid6_damping H6) as D6.
  split; repeat split.
  - rewrite M4_by_coordinates.
    apply (symmetric_by_coordinates dofs4_some). intros p q. now apply mass_entry_sym.
  - rewrite K4_by_coordinates.
    apply (symmetric_by_coordinates dofs4_some). intros p q. now apply spring_entry_sym.
  - rewrite C4_by_coordinates.
    apply (symmetric_by_coordinates dofs4_some). intros p q. now apply spring_entry_sym.
  - rewrite G4_by_coordinates.
    apply (skew_by_coordinates dofs4_some). intros p q. now apply gyro_entry_skew.
  - rewrite M6_by_coordinates.
    apply (symmetric_by_coordinates dofs6_some). intros p q. now apply mass_entry_sym.
  - rewrite K6_by_coordinates.
    apply (symmetric_by_coordinates dofs6_some). intros p q. now apply spring_entry_sym.
  - rewrite C6_by_coordinates.
    apply (symmetric_by_coordinates dofs6_some). intros p q. now apply spring_entry_sym.
  - rewrite G6_by_coordinates.
    apply (skew_by_coordinates dofs6_some). intros p q. now apply gyro_entry_skew.
Qed.

Lemma matrix_symmetry_witness :
  let e4 := CouplingElement.__init__ damper4 in
  let e6 := CouplingElement6DoF.__init__ sample6 in
  (valid4 damper4 /\ valid6 sample6)
  /\ (np.array_equal (CouplingElement.M e4) (np.T (CouplingElement.M e4)) = true
      /\ np.array_equal (CouplingElement.K e4) (np.T (CouplingElement.K e4)) = true
      /\ np.array_equal (CouplingElement.C e4) (np.T (CouplingElement.C e4)) = true
      /\ np.array_equal (CouplingElement.G e4)
           (np.negative (np.T (CouplingElement.G e4))) = true)
  /\ (np.array_equal (CouplingElement6DoF.M e6) (np.T (CouplingElement6DoF.M e6)) = true
      /\ np.array_equal (CouplingElement6DoF.K e6) (np.T (CouplingElement6DoF.K e6)) = true
      /\ np.array_equal (CouplingElement6DoF.C e6) (np.T (CouplingElement6DoF.C e6)) = true
      /\ np.array_equal (CouplingElement6DoF.G e6)
           (np.negative (np.T (CouplingElement6DoF.G e6))) = true).
Proof.
  intros e4 e6.
  assert (V4 : valid4 damper4) by by_computation.
  assert (V6 : valid6 sample6) by by_computation.
  split; [split; [exact V4|exact V6]|].
  exact (matrix_symmetry V4 V6).
Defined.

(** C2, as the specification words it, fails on the code: for
    [CouplingElement(m_l=1.0, m_r=1.0, Ip_l=2.0, Ip_r=2.0)] the code has
    [G[2,3] = 2.0] and [G[3,2] = -2.0], the opposite of the signs claimed,
    and the entry at (rot_x, rot_y) of the left station is not the [-Ip] of
    section 4.5. *)
Lemma gyroscopic_signs_counterexample :
  let e := CouplingElement.__init__ unit_masses4 in
  let G := CouplingElement.G e in
  (np.getitem G 2 3 = Some 2%float /\ np.getitem G 3 2 = Some (-2)%float
   /\ np.getitem G 6 7 = Some 2%float /\ np.getitem G 7 6 = Some (-2)%float)
  /\ (np.getitem G 2 3 <> Some (-2)%float /\ np.getitem G 3 2 <> Some 2%float
      /\ (2 =? -2)%float = false)
  /\ (Local.coordinate Local.dofs4 2 = Some (Local.left, Local.rot_x)
      /\ Local.coordinate Local.dofs4 3 = Some (Local.left, Local.rot_y)
      /\ np.getitem G 2 3
         <> Local.entry Local.dofs4 (Local.gyro_entry_as_specified (inertia4 e)) 2 3).
Proof.
  assert (N : forall x y : float,
             (x =? y)%float = false -> Py.not_nan y -> Some x <> Some y).
  { intros x y H Hy E. injection E as E. exact (eqb_false_neq H Hy E). }
  repeat split; try apply N; reflexivity.
Qed.

(** C2, amended. For every parameter set, G() is block-diagonal (all
    cross-station entries zero) and, within each station's diagonal block,
    the only non-zero entries are entry (rot_x, rot_y) = +Ip and entry
    (rot_y, rot_x) = -Ip, with that station's own polar inertia; in
    particular, for the 4-DOF element with Ip_l = Ip_r = 2.0 (and any
    stiffness and damping), G[2,3] = 2.0, G[3,2] = -2.0, G[6,7] = 2.0,
    G[7,6] = -2.0 and every other entry is zero. *)
Theorem gyroscopic_structure
  (e4 : CouplingElement.self) (e6 : CouplingElement6DoF.self)
  (a : CouplingElement.kw.t) (i j : nat) :
  np.getitem (CouplingElement.G e4) i j
  = Local.entry Local.dofs4
      (Local.gyro_entry
         (Local.Inertia
            (by_station (CouplingElement.m_l e4) (CouplingElement.m_r e4))
            (by_station (CouplingElement.Id_l e4) (CouplingElement.Id_r e4))
            (by_station (CouplingElement.Ip_l e4) (CouplingElement.Ip_r e4)))) i j
  /\ np.getitem (CouplingElement6DoF.G e6) i j
     = Local.entry Local.dofs6
         (Local.gyro_entry
            (Local.Inertia
               (by_station (CouplingElement6DoF.m_l e6) (CouplingElement6DoF.m_r e6))
               (by_station (CouplingElement6DoF.Id_l e6) (CouplingElement6DoF.Id_r e6))
               (by_station (CouplingElement6DoF.Ip_l e6) (CouplingElement6DoF.Ip_r e6)))) i j
  /\ (CouplingElement.kw.Ip_l a = 2%float -> CouplingElement.kw.Ip_r a = 2%float ->
      np.has_shape (8, 8) (CouplingElement.G (CouplingElement.__init__ a)) = true
      /\ np.nonzero (CouplingElement.G (CouplingElement.__init__ a))
         = [(2, 3, 2%float); (3, 2, (-2)%float); (6, 7, 2%float); (7, 6, (-2)%float)]).
Proof.
  split; [apply getitem_G4|]. split; [apply getitem_G6|].
  intros Hl Hr. destruct a; simpl in Hl, Hr; subst. split; reflexivity.
Qed.

Lemma gyroscopic_structure_witness :
  CouplingElement.kw.Ip_l unit_masses4 = 2%float
  /\ CouplingElement.kw.Ip_r unit_masses4 = 2%float
  /\ np.nonzero (CouplingElement.G (CouplingElement.__init__ unit_masses4))
     = [(2, 3, 2%float); (3, 2, (-2)%float); (6, 7, 2%float); (7, 6, (-2)%float)].
Proof.
  split; [reflexivity|]. split; [reflexivity|].
  apply (gyroscopic_structure (CouplingElement.__init__ unit_masses4)
           (CouplingElement6DoF.__init__ sample6) unit_masses4 0 0);
    reflexivity.
Defined.

(** C3. For every parameter set, M() is block-diagonal with all cross-station
    entries zero: within each station's block the diagonal entries at the
    translations equal that station's mass, those at the rotations about x
    and y equal that station's Id, in the 6-DOF variant the entry at the
    axial translation equals the mass and the entry at the torsion equals
    that station's Ip; every off-diagonal entry is zero. In particular the
    4-DOF element built with m_l = m_r = 1.0, Ip_l = Ip_r = 2.0 and no Id has
    the mass-matrix diagonal [1,1,1,1,1,1,1,1]. *)
Theorem mass_structure
  (e4 : CouplingElement.self) (e6 : CouplingElement6DoF.self)
  (a : CouplingElement.kw.t) (i j : nat) :
  np.getitem (CouplingElement.M e4) i j
  = Local.entry Local.dofs4
      (Local.mass_entry
         (Local.Inertia
            (by_station (CouplingElement.m_l e4) (CouplingElement.m_r e4))
            (by_station (CouplingElement.Id_l e4) (CouplingElement.Id_r e4))
            (by_station (CouplingElement.Ip_l e4) (CouplingElement.Ip_r e4)))) i j
  /\ np.getitem (CouplingElement6DoF.M e6) i j
     = Local.entry Local.dofs6
         (Local.mass_entry
            (Local.Inertia
               (by_station (CouplingElement6DoF.m_l e6) (CouplingElement6DoF.m_r e6))
               (by_station (CouplingElement6DoF.Id_l e6) (CouplingElement6DoF.Id_r e6))
               (by_station (CouplingElement6DoF.Ip_l e6) (CouplingElement6DoF.Ip_r e6)))) i j
  /\ (CouplingElement.kw.m_l a = 1%float -> CouplingElement.kw.m_r a = 1%float ->
      CouplingElement.kw.Ip_l a = 2%float -> CouplingElement.kw.Ip_r a = 2%float ->
      CouplingElement.kw.Id_l a = None -> CouplingElement.kw.Id_r a = None ->
      np.diag (CouplingElement.M (CouplingElement.__init__ a))
      = [1; 1; 1; 1; 1; 1; 1; 1]%float).
Proof.
  split; [apply getitem_M4|]. split; [apply getitem_M6|].
  intros H1 H2 H3 H4 H5 H6. destruct a; simpl in *; subst. reflexivity.
Qed.

Lemma mass_structure_witness :
  (CouplingElement.kw.m_l unit_masses4 = 1%float
   /\ CouplingElement.kw.m_r unit_masses4 = 1%float
   /\ CouplingElement.kw.Ip_l unit_masses4 = 2%float
   /\ CouplingElement.kw.Ip_r unit_masses4 = 2%float
   /\ CouplingElement.kw.Id_l unit_masses4 = None
   /\ CouplingElement.kw.Id_r unit_masses4 = None)
  /\ np.diag (CouplingElement.M (CouplingElement.__init__ unit_masses4))
     = [1; 1; 1; 1; 1; 1; 1; 1]%float.
Proof.
  split; [repeat split|].
  apply (mass_structure (CouplingElement.__init__ unit_masses4)
           (CouplingElement6DoF.__init__ sample6) unit_masses4 0 0);
    reflexivity.
Defined.

(** C4. For every parameter set, K() is the direct sum over the variant's
    channels (kt_x, kt_y, kr_x, kr_y; in the 6-DOF variant also kt_z and
    kr_z) of the pattern [[k, -k], [-k, k]] placed across the coordinates of
    the channel's direction at the left and right stations, and C() is the
    same with each stiffness replaced by the damping of the same channel. *)
Theorem stiffness_damping_structure
  (e4 : CouplingElement.self) (e6 : CouplingElement6DoF.self) (i j : nat) :
  np.getitem (CouplingElement.K e4) i j
  = Local.entry Local.dofs4
      (Local.spring_entry
         [(Local.trans_x, CouplingElement.kt_x e4); (Local.trans_y, CouplingElement.kt_y e4);
          (Local.rot_x, CouplingElement.kr_x e4); (Local.rot_y, CouplingElement.kr_y e4)]) i j
  /\ np.getitem (CouplingElement.C e4) i j
     = Local.entry Local.dofs4
         (Local.spring_entry
            [(Local.trans_x, CouplingElement.ct_x e4); (Local.trans_y, CouplingElement.ct_y e4);
             (Local.rot_x, CouplingElement.cr_x e4); (Local.rot_y, CouplingElement.cr_y e4)]) i j
  /\ np.getitem (CouplingElement6DoF.K e6) i j
     = Local.entry Local.dofs6
         (Local.spring_entry
            [(Local.trans_x, CouplingElement6DoF.kt_x e6);
             (Local.trans_y, CouplingElement6DoF.kt_y e6);
             (Local.trans_z, CouplingElement6DoF.kt_z e6);
             (Local.rot_x, CouplingElement6DoF.kr_x e6);
             (Local.rot_y, CouplingElement6DoF.kr_y e6);
             (Local.rot_z, CouplingElement6DoF.kr_z e6)]) i j
  /\ np.getitem (CouplingElement6DoF.C e6) i j
     = Local.entry Local.dofs6
         (Local.spring_entry
            [(Local.trans_x, CouplingElement6DoF.ct_x e6);
             (Local.trans_y, CouplingElement6DoF.ct_y e6);
             (Local.trans_z, CouplingElement6DoF.ct_z e6);
             (Local.rot_x, CouplingElement6DoF.cr_x e6);
             (Local.rot_y, CouplingElement6DoF.cr_y e6);
             (Local.rot_z, CouplingElement6DoF.cr_z e6)]) i j.
Proof.
  split; [apply getitem_K4|]. split; [apply getitem_C4|].
  split; [apply getitem_K6|apply getitem_C6].
Qed.

(** C5. For a 4-DOF element built with kt_x = 5.0 and every other stiffness
    zero (left out, or given as zero), K() has exactly four non-zero entries:
    K[0,0] = 5, K[0,4] = -5, K[4,0] = -5, K[4,4] = 5. *)
Theorem single_stiffness_channel (a : CouplingElement.kw.t) :
  CouplingElement.kw.kt_x a = Some 5%float ->
  unset_or_zero (CouplingElement.kw.kt_y a) = true ->
  unset_or_zero (CouplingElement.kw.kr_x a) = true ->
  unset_or_zero (CouplingElement.kw.kr_y a) = true ->
  np.nonzero (CouplingElement.K (CouplingElement.__init__ a))
  = [(0, 0, 5%float); (0, 4, (-5)%float); (4, 0, (-5)%float); (4, 4, 5%float)].
Proof.
  intros Hx Hy Hrx Hry.
  rewrite unset_or_zero_optional in Hy, Hrx, Hry.
  destruct a; cbn -[optional] in *. subst.
  unfold np.nonzero, CouplingElement.K, Py.float; cbn -[optional].
  rewrite !eqb_opp_zero, Hy, Hrx, Hry. reflexivity.
Qed.

Lemma single_stiffness_channel_witness :
  (CouplingElement.kw.kt_x spring_x4 = Some 5%float
   /\ unset_or_zero (CouplingElement.kw.kt_y spring_x4) = true
   /\ unset_or_zero (CouplingElement.kw.kr_x spring_x4) = true
   /\ unset_or_zero (CouplingElement.kw.kr_y spring_x4) = true)
  /\ np.nonzero (CouplingElement.K (CouplingElement.__init__ spring_x4))
     = [(0, 0, 5%float); (0, 4, (-5)%float); (4, 0, (-5)%float); (4, 4, 5%float)].
Proof.
  split; [repeat split|].
  apply (single_stiffness_channel spring_x4); reflexivity.
Defined.

(** C6. Channel independence: for two parameter sets that differ only in one
    stiffness (or damping) coefficient, which the second sets to zero, the
    matrices K() (or C()) differ in exactly the four positions of that
    channel, where the second has zeros, and are equal in every other
    position. *)
Theorem channel_independence
  (d : Local.dof)
  (e4 e4' : CouplingElement.self) (e6 e6' : CouplingElement6DoF.self) :
  (zeroes_channel d (stiffness4 e4) (stiffness4 e4') ->
   zeroed_exactly_at (Local.channel_positions Local.dofs4 d)
     (CouplingElement.K e4) (CouplingElement.K e4'))
  /\ (zeroes_channel d (damping4 e4) (damping4 e4') ->
      zeroed_exactly_at (Local.channel_positions Local.dofs4 d)
        (CouplingElement.C e4) (CouplingElement.C e4'))
  /\ (zeroes_channel d (stiffness6 e6) (stiffness6 e6') ->
      zeroed_exactly_at (Local.channel_positions Local.dofs6 d)
        (CouplingElement6DoF.K e6) (CouplingElement6DoF.K e6'))
  /\ (zeroes_channel d (damping6 e6) (damping6 e6') ->
      zeroed_exactly_at (Local.channel_positions Local.dofs6 d)
        (CouplingElement6DoF.C e6) (CouplingElement6DoF.C e6'))
  /\ (In d Local.dofs4 ->
      length (Local.channel_positions Local.dofs4 d) = 4
      /\ NoDup (Local.channel_positions Local.dofs4 d))
  /\ (In d Local.dofs6 ->
      length (Local.channel_positions Local.dofs6 d) = 4
      /\ NoDup (Local.channel_positions Local.dofs6 d)).
Proof.
  split; [|split; [|split; [|split; [|split]]]].
  - intros H. rewrite !K4_by_coordinates.
    apply by_coordinates_zeroed; [apply mem_channel_positions4|exact H].
  - intros H. rewrite !C4_by_coordinates.
    apply by_coordinates_zeroed; [apply mem_channel_positions4|exact H].
  - intros H. rewrite !K6_by_coordinates.
    apply by_coordinates_zeroed; [apply mem_channel_positions6|exact H].
  - intros H. rewrite !C6_by_coordinates.
    apply by_coordinates_zeroed; [apply mem_channel_positions6|exact H].
  - apply channel_positions4_four.
  - apply channel_positions6_four.
Qed.

Lemma channel_independence_witness :
  let e4 := CouplingElement.__init__ spring_x4 in
  let e4' := CouplingElement.__init__ spring_x4_zeroed in
  let f4 := CouplingElement.__init__ damper4 in
  let f4' := CouplingElement.__init__ damper4_zeroed in
  let e6 := CouplingElement6DoF.__init__ sample6 in
  let e6' := CouplingElement6DoF.__init__ sample6_kr_z_zeroed in
  let f6' := CouplingElement6DoF.__init__ sample6_ct_x_zeroed in
  (zeroes_channel Local.trans_x (stiffness4 e4) (stiffness4 e4')
   /\ zeroed_exactly_at [(0, 0); (0, 4); (4, 0); (4, 4)]
        (CouplingElement.K e4) (CouplingElement.K e4'))
  /\ (zeroes_channel Local.rot_x (damping4 f4) (damping4 f4')
      /\ zeroed_exactly_at [(2, 2); (2, 6); (6, 2); (6, 6)]
           (CouplingElement.C f4) (CouplingElement.C f4'))
  /\ (zeroes_channel Local.rot_z (stiffness6 e6) (stiffness6 e6')
      /\ zeroed_exactly_at [(5, 5); (5, 11); (11, 5); (11, 11)]
           (CouplingElement6DoF.K e6) (CouplingElement6DoF.K e6'))
  /\ (zeroes_channel Local.trans_x (damping6 e6) (damping6 f6')
      /\ zeroed_exactly_at [(0, 0); (0, 6); (6, 0); (6, 6)]
           (CouplingElement6DoF.C e6) (CouplingElement6DoF.C f6'))
  /\ (In Local.rot_y Local.dofs4
      /\ length (Local.channel_positions Local.dofs4 Local.rot_y) = 4)
  /\ (In Local.trans_z Local.dofs6
      /\ length (Local.channel_positions Local.dofs6 Local.trans_z) = 4).
Proof.
  intros e4 e4' f4 f4' e6 e6' f6'.
  assert (Z : forall d ks ks' k z,
             (forall d', Local.dof_eqb d' d = false ->
                         Local.coefficient ks d' = Local.coefficient ks' d') ->
             Local.coefficient ks d = Some k -> Local.coefficient ks' d = Some z ->
             (z =? 0)%float = true -> (k =? z)%float = false ->
             zeroes_channel d ks ks').
  { intros d ks ks' k z H1 H2 H3 H4 H5. split.
    - intros d' Hd'. apply H1. destruct d, d'; try reflexivity; congruence.
    - exists k, z. auto. }
  assert (H1 : zeroes_channel Local.trans_x (stiffness4 e4) (stiffness4 e4')).
  { apply (Z _ _ _ 5%float 0%float); try reflexivity.
    intros d' Hd'; destruct d'; try reflexivity; discriminate. }
  assert (H2 : zeroes_channel Local.rot_x (damping4 f4) (damping4 f4')).
  { apply (Z _ _ _ (-1)%float 0%float); try reflexivity.
    intros d' Hd'; destruct d'; try reflexivity; discriminate. }
  assert (H3 : zeroes_channel Local.rot_z (stiffness6 e6) (stiffness6 e6')).
  { apply (Z _ _ _ (-2)%float 0%float); try reflexivity.
    intros d' Hd'; destruct d'; try reflexivity; discriminate. }
  assert (H4 : zeroes_channel Local.trans_x (damping6 e6) (damping6 f6')).
  { apply (Z _ _ _ 1.5%float 0%float); try reflexivity.
    intros d' Hd'; destruct d'; try reflexivity; discriminate. }
  assert (H5 : In Local.rot_y Local.dofs4) by (simpl; auto).
  assert (H6 : In Local.trans_z Local.dofs6) by (simpl; auto).
  split; [split; [exact H1|]|split; [split; [exact H2|]|split; [split; [exact H3|]|
  split; [split; [exact H4|]|split; [split; [exact H5|]|split; [exact H6|]]]]]].
  - exact (proj1 (channel_independence Local.trans_x e4 e4' e6 e6') H1).
  - exact (proj1 (proj2 (channel_independence Local.rot_x f4 f4' e6 e6')) H2).
  - exact (proj1 (proj2 (proj2 (channel_independence Local.rot_z e4 e4' e6 e6'))) H3).
  - exact (proj1 (proj2 (proj2 (proj2
             (channel_independence Local.trans_x e4 e4' e6 f6')))) H4).
  - exact (proj1 (proj1 (proj2 (proj2 (proj2 (proj2
             (channel_independence Local.rot_y e4 e4' e6 e6'))))) H5)).
  - exact (proj1 (proj2 (proj2 (proj2 (proj2 (proj2
             (channel_independence Local.trans_z e4 e4' e6 e6'))))) H6)).
Defined.

(** C7. Diametral-inertia default: constructing either variant without
    Id_l / Id_r yields Id_l = Ip_l / 2 and Id_r = Ip_r / 2, and so does
    constructing it with an Id that is exactly zero; the fields of the
    constructed element hold the defaulted values (and M() reads them). *)
Theorem diametral_default
  (a4 : CouplingElement.kw.t) (a6 : CouplingElement6DoF.kw.t) :
  let e4 := CouplingElement.__init__ a4 in
  let e6 := CouplingElement6DoF.__init__ a6 in
  (unset_or_zero (CouplingElement.kw.Id_l a4) = true ->
   CouplingElement.Id_l e4 = (CouplingElement.kw.Ip_l a4 / 2)%float
   /\ np.getitem (CouplingElement.M e4) 2 2 = Some (CouplingElement.kw.Ip_l a4 / 2)%float)
  /\ (unset_or_zero (CouplingElement.kw.Id_r a4) = true ->
      CouplingElement.Id_r e4 = (CouplingElement.kw.Ip_r a4 / 2)%float
      /\ np.getitem (CouplingElement.M e4) 6 6 = Some (CouplingElement.kw.Ip_r a4 / 2)%float)
  /\ (unset_or_zero (CouplingElement6DoF.kw.Id_l a6) = true ->
      CouplingElement6DoF.Id_l e6 = (CouplingElement6DoF.kw.Ip_l a6 / 2)%float
      /\ np.getitem (CouplingElement6DoF.M e6) 3 3
         = Some (CouplingElement6DoF.kw.Ip_l a6 / 2)%float)
  /\ (unset_or_zero (CouplingElement6DoF.kw.Id_r a6) = true ->
      CouplingElement6DoF.Id_r e6 = (CouplingElement6DoF.kw.Ip_r a6 / 2)%float
      /\ np.getitem (CouplingElement6DoF.M e6) 9 9
         = Some (CouplingElement6DoF.kw.Ip_r a6 / 2)%float).
Proof.
  intros e4 e6.
  assert (D : forall o Ip, unset_or_zero o = true ->
            (if Py.bool (optional o) then Py.float (optional o) else (Ip / 2)%float)
            = (Ip / 2)%float).
  { intros o Ip H. rewrite unset_or_zero_optional in H.
    unfold Py.bool. rewrite H. reflexivity. }
  repeat split; try (apply D; assumption);
    unfold e4, e6; (rewrite getitem_M4 || rewrite getitem_M6);
    cbn -[optional PrimFloat.div]; f_equal; apply D; assumption.
Qed.

Lemma diametral_default_witness :
  let e4 := CouplingElement.__init__ unit_masses4 in
  let e6 := CouplingElement6DoF.__init__ sample6 in
  (unset_or_zero (CouplingElement.kw.Id_l unit_masses4) = true
   /\ unset_or_zero (CouplingElement.kw.Id_r unit_masses4) = true
   /\ CouplingElement6DoF.kw.Id_l sample6 = Some 0%float
   /\ unset_or_zero (CouplingElement6DoF.kw.Id_l sample6) = true
   /\ unset_or_zero (CouplingElement6DoF.kw.Id_r sample6) = true)
  /\ CouplingElement.Id_l e4 = 1%float /\ CouplingElement.Id_r e4 = 1%float
  /\ CouplingElement6DoF.Id_l e6 = 0.25%float
  /\ CouplingElement6DoF.Id_r e6 = 0.125%float.
Proof.
  intros e4 e6.
  destruct (diametral_default unit_masses4 sample6) as (H1 & H2 & H3 & H4).
  split; [repeat split|].
  split; [exact (proj1 (H1 eq_refl))|]. split; [exact (proj1 (H2 eq_refl))|].
  split; [exact (proj1 (H3 eq_refl))|exact (proj1 (H4 eq_refl))].
Defined.

(** C8. Dimension contract: every matrix of the 4-DOF variant is 8x8, every
    matrix of the 6-DOF variant is 12x12, and Kst() of the 6-DOF variant is
    the 12x12 zero matrix whatever the element's parameters. *)
Theorem dimension_contract
  (e4 : CouplingElement.self) (e6 : CouplingElement6DoF.self) :
  (np.has_shape (8, 8) (CouplingElement.M e4) = true
   /\ np.has_shape (8, 8) (CouplingElement.K e4) = true
   /\ np.has_shape (8, 8) (CouplingElement.C e4) = true
   /\ np.has_shape (8, 8) (CouplingElement.G e4) = true)
  /\ (np.has_shape (12, 12) (CouplingElement6DoF.M e6) = true
      /\ np.has_shape (12, 12) (CouplingElement6DoF.K e6) = true
      /\ np.has_shape (12, 12) (CouplingElement6DoF.C e6) = true
      /\ np.has_shape (12, 12) (CouplingElement6DoF.G e6) = true
      /\ np.has_shape (12, 12) (CouplingElement6DoF.Kst e6) = true)
  /\ (forall i j, np.getitem (CouplingElement6DoF.Kst e6) i j
                  = if (i <? 12) && (j <? 12) then Some 0%float else None).
Proof.
  split; [repeat split; reflexivity|]. split; [repeat split; reflexivity|].
  intros i j.
  change (CouplingElement6DoF.Kst e6) with (np.fromfunction (12, 12) (fun _ _ => 0%float)).
  apply getitem_fromfunction.
Qed.

(** C10. Whatever the inputs, construction sets beam_cg = 1e20 and
    slenderness_ratio = 1e30 in both variants, and the 6-DOF constructor sets
    the outer diameter o_d = 150e-3. *)
Theorem sentinel_attributes
  (a4 : CouplingElement.kw.t) (a6 : CouplingElement6DoF.kw.t) :
  (CouplingElement.beam_cg (CouplingElement.__init__ a4) = 1e20%float
   /\ CouplingElement.slenderness_ratio (CouplingElement.__init__ a4) = 1e30%float)
  /\ (CouplingElement6DoF.beam_cg (CouplingElement6DoF.__init__ a6) = 1e20%float
      /\ CouplingElement6DoF.slenderness_ratio (CouplingElement6DoF.__init__ a6)
         = 1e30%float
      /\ CouplingElement6DoF.o_d (CouplingElement6DoF.__init__ a6) = 150e-3%float).
Proof. repeat split. Qed.

(** C9. Construction performs no sign or range validation: for all
    real-valued inputs, negative ones included, construction of either
    variant succeeds ([__init__] is a total function: no statement of its
    body can raise on floats), the attributes hold the inputs unchanged and
    M(), K(), C() and G() are made of these very inputs. *)
Theorem no_validation
  (a4 : CouplingElement.kw.t) (a6 : CouplingElement6DoF.kw.t) :
  let e4 := CouplingElement.__init__ a4 in
  let e6 := CouplingElement6DoF.__init__ a6 in
  let I4 := Local.Inertia
    (by_station (CouplingElement.kw.m_l a4) (CouplingElement.kw.m_r a4))
    (by_station (diametral_of (CouplingElement.kw.Id_l a4) (CouplingElement.kw.Ip_l a4))
                (diametral_of (CouplingElement.kw.Id_r a4) (CouplingElement.kw.Ip_r a4)))
    (by_station (CouplingElement.kw.Ip_l a4) (CouplingElement.kw.Ip_r a4)) in
  let k4 :=
    [(Local.trans_x, optional (CouplingElement.kw.kt_x a4));
     (Local.trans_y, optional (CouplingElement.kw.kt_y a4));
     (Local.rot_x, optional (CouplingElement.kw.kr_x a4));
     (Local.rot_y, optional (CouplingElement.kw.kr_y a4))] in
  let c4 :=
    [(Local.trans_x, optional (CouplingElement.kw.ct_x a4));
     (Local.trans_y, optional (CouplingElement.kw.ct_y a4));
     (Local.rot_x, optional (CouplingElement.kw.cr_x a4));
     (Local.rot_y, optional (CouplingElement.kw.cr_y a4))] in
  let I6 := Local.Inertia
    (by_station (CouplingElement6DoF.kw.m_l a6) (CouplingElement6DoF.kw.m_r a6))
    (by_station
       (diametral_of (CouplingElement6DoF.kw.Id_l a6) (CouplingElement6DoF.kw.Ip_l a6))
       (diametral_of (CouplingElement6DoF.kw.Id_r a6) (CouplingElement6DoF.kw.Ip_r a6)))
    (by_station (CouplingElement6DoF.kw.Ip_l a6) (CouplingElement6DoF.kw.Ip_r a6)) in
  let k6 :=
    [(Local.trans_x, optional (CouplingElement6DoF.kw.kt_x a6));
     (Local.trans_y, optional (CouplingElement6DoF.kw.kt_y a6));
     (Local.trans_z, optional (CouplingElement6DoF.kw.kt_z a6));
     (Local.rot_x, optional (CouplingElement6DoF.kw.kr_x a6));
     (Local.rot_y, optional (CouplingElement6DoF.kw.kr_y a6));
     (Local.rot_z, optional (CouplingElement6DoF.kw.kr_z a6))] in
  let c6 :=
    [(Local.trans_x, optional (CouplingElement6DoF.kw.ct_x a6));
     (Local.trans_y, optional (CouplingElement6DoF.kw.ct_y a6));
     (Local.trans_z, optional (CouplingElement6DoF.kw.ct_z a6));
     (Local.rot_x, optional (CouplingElement6DoF.kw.cr_x a6));
     (Local.rot_y, optional (CouplingElement6DoF.kw.cr_y a6));
     (Local.rot_z, optional (CouplingElement6DoF.kw.cr_z a6))] in
  (inertia4 e4 = I4 /\ stiffness4 e4 = k4 /\ damping4 e4 = c4
   /\ CouplingElement.M e4 = Local.by_coordinates Local.dofs4 (Local.mass_entry I4)
   /\ CouplingElement.K e4 = Local.by_coordinates Local.dofs4 (Local.spring_entry k4)
   /\ CouplingElement.C e4 = Local.by_coordinates Local.dofs4 (Local.spring_entry c4)
   /\ CouplingElement.G e4 = Local.by_coordinates Local.dofs4 (Local.gyro_entry I4))
  /\ (inertia6 e6 = I6 /\ stiffness6 e6 = k6 /\ damping6 e6 = c6
      /\ CouplingElement6DoF.M e6 = Local.by_coordinates Local.dofs6 (Local.mass_entry I6)
      /\ CouplingElement6DoF.K e6 = Local.by_coordinates Local.dofs6 (Local.spring_entry k6)
      /\ CouplingElement6DoF.C e6 = Local.by_coordinates Local.dofs6 (Local.spring_entry c6)
      /\ CouplingElement6DoF.G e6 = Local.by_coordinates Local.dofs6 (Local.gyro_entry I6)).
Proof.
  intros e4 e6 I4 k4 c4 I6 k6 c6.
  assert (E4 : inertia4 e4 = I4).
  { unfold inertia4, e4, I4; simpl. rewrite !default_diametral_of. reflexivity. }
  assert (E6 : inertia6 e6 = I6).
  { unfold inertia6, e6, I6; simpl. rewrite !default_diametral_of. reflexivity. }
  split.
  - split; [exact E4|]. split; [reflexivity|]. split; [reflexivity|].
    rewrite <- E4. repeat split.
  - split; [exact E6|]. split; [reflexivity|]. split; [reflexivity|].
    rewrite <- E6. repeat split.
Qed.

(** An element whose every parameter is negative: the matrices hold the
    negative values as they were given. *)
Example negative_parameters :
  let e := CouplingElement.__init__ negative4 in
  np.diag (CouplingElement.M e)
  = [-1; -1; -0.5; -0.5; -2; -2; -0.25; -0.25]%float
  /\ np.diag (CouplingElement.K e) = [-5; -6; -7; -8; -5; -6; -7; -8]%float
  /\ np.diag (CouplingElement.C e) = [-9; -10; -11; -12; -9; -10; -11; -12]%float
  /\ np.nonzero (CouplingElement.G e)
     = [(2, 3, (-3)%float); (3, 2, 3%float); (6, 7, (-4)%float); (7, 6, 4%float)]
  /\ np.diag (CouplingElement6DoF.M (CouplingElement6DoF.__init__ negative6))
     = [-1; -1; -1; -0.5; -0.5; -3; -2; -2; -2; -0.25; -0.25; -4]%float.
Proof. repeat split. Qed.

(* ================================================================== *)
(** * Further properties of the code *)

(** ** The constructors *)

(** X1. Building an element again from its own attributes gives the same
    element, for both variants: the defaulting of Id and of the color changes
    nothing the second time. *)
Theorem rebuilt_from_attributes
  (a4 : CouplingElement.kw.t) (a6 : CouplingElement6DoF.kw.t) :
  CouplingElement.__init__ (kwargs_of4 (CouplingElement.__init__ a4))
  = CouplingElement.__init__ a4
  /\ CouplingElement6DoF.__init__ (kwargs_of6 (CouplingElement6DoF.__init__ a6))
     = CouplingElement6DoF.__init__ a6.
Proof.
  split.
  - unfold CouplingElement.__init__, kwargs_of4;
      cbn -[optional Py.bool Py.float PrimFloat.div PrimFloat.add].
    rewrite !rebuilt_diametral. reflexivity.
  - unfold CouplingElement6DoF.__init__, kwargs_of6;
      cbn -[optional Py.bool Py.float PrimFloat.div PrimFloat.add].
    rewrite !rebuilt_diametral. reflexivity.
Qed.

(** X2. An element never holds a zero diametral inertia beside a polar
    inertia whose half is not zero: whatever Id is passed, zero included, if
    Ip / 2 is not zero then the Id attribute is not zero. *)
Theorem diametral_never_zero
  (a4 : CouplingElement.kw.t) (a6 : CouplingElement6DoF.kw.t) :
  let e4 := CouplingElement.__init__ a4 in
  let e6 := CouplingElement6DoF.__init__ a6 in
  ((CouplingElement.kw.Ip_l a4 / 2 =? 0)%float = false ->
   (CouplingElement.Id_l e4 =? 0)%float = false)
  /\ ((CouplingElement.kw.Ip_r a4 / 2 =? 0)%float = false ->
      (CouplingElement.Id_r e4 =? 0)%float = false)
  /\ ((CouplingElement6DoF.kw.Ip_l a6 / 2 =? 0)%float = false ->
      (CouplingElement6DoF.Id_l e6 =? 0)%float = false)
  /\ ((CouplingElement6DoF.kw.Ip_r a6 / 2 =? 0)%float = false ->
      (CouplingElement6DoF.Id_r e6 =? 0)%float = false).
Proof. repeat split; apply default_never_zero. Qed.

Lemma diametral_never_zero_witness :
  let e6 := CouplingElement6DoF.__init__ sample6 in
  (CouplingElement6DoF.kw.Id_l sample6 = Some 0%float
   /\ (CouplingElement6DoF.kw.Ip_l sample6 / 2 =? 0)%float = false
   /\ (CouplingElement6DoF.kw.Ip_r sample6 / 2 =? 0)%float = false
   /\ (CouplingElement.kw.Ip_l unit_masses4 / 2 =? 0)%float = false
   /\ (CouplingElement.kw.Ip_r unit_masses4 / 2 =? 0)%float = false)
  /\ (CouplingElement6DoF.Id_l e6 =? 0)%float = false
  /\ (CouplingElement6DoF.Id_r e6 =? 0)%float = false
  /\ (CouplingElement.Id_l (CouplingElement.__init__ unit_masses4) =? 0)%float = false
  /\ (CouplingElement.Id_r (CouplingElement.__init__ unit_masses4) =? 0)%float = false.
Proof.
  intros e6.
  destruct (diametral_never_zero unit_masses4 sample6) as (H1 & H2 & H3 & H4).
  split; [repeat split|].
  split; [exact (H3 eq_refl)|]. split; [exact (H4 eq_refl)|].
  split; [exact (H1 eq_refl)|exact (H2 eq_refl)].
Defined.

(** ** The matrices of the two variants *)

(** X3. The 6-DOF element restricted to the coordinates of the 4-DOF element
    is the 4-DOF element of the same parameters: M, K, C and G of the latter
    are the rows and columns 0, 1, 3, 4, 6, 7, 9, 10 of those of the former,
    and no matrix of the 6-DOF element, Kst included, has an entry other than
    0.0 between these coordinates and the axial and torsional ones. *)
Theorem bending_restriction (a : CouplingElement6DoF.kw.t) :
  let e6 := CouplingElement6DoF.__init__ a in
  let e4 := CouplingElement.__init__ (bending_part a) in
  (CouplingElement.M e4 = ix_ bending_indices bending_indices (CouplingElement6DoF.M e6)
   /\ CouplingElement.K e4 = ix_ bending_indices bending_indices (CouplingElement6DoF.K e6)
   /\ CouplingElement.C e4 = ix_ bending_indices bending_indices (CouplingElement6DoF.C e6)
   /\ CouplingElement.G e4 = ix_ bending_indices bending_indices (CouplingElement6DoF.G e6))
  /\ Forall
       (fun X => ix_ bending_indices axial_torsional_indices X = np.zeros (8, 4)
                 /\ ix_ axial_torsional_indices bending_indices X = np.zeros (4, 8))
       [CouplingElement6DoF.M e6; CouplingElement6DoF.K e6;
        CouplingElement6DoF.C e6; CouplingElement6DoF.G e6;
        CouplingElement6DoF.Kst e6].
Proof. split; [repeat split|repeat constructor]. Qed.

(** X4. Exchanging the two stations in the arguments exchanges the two
    diagonal blocks of M and of G and leaves K and C as they are, which are
    their own exchange; for both variants. *)
Theorem stations_reversed
  (a4 : CouplingElement.kw.t) (a6 : CouplingElement6DoF.kw.t) :
  let e4 := CouplingElement.__init__ a4 in
  let r4 := CouplingElement.__init__ (reversed4 a4) in
  let e6 := CouplingElement6DoF.__init__ a6 in
  let r6 := CouplingElement6DoF.__init__ (reversed6 a6) in
  let x4 := stations_exchanged 4 in
  let x6 := stations_exchanged 6 in
  (CouplingElement.M r4 = ix_ x4 x4 (CouplingElement.M e4)
   /\ CouplingElement.G r4 = ix_ x4 x4 (CouplingElement.G e4)
   /\ CouplingElement.K r4 = CouplingElement.K e4
   /\ CouplingElement.C r4 = CouplingElement.C e4
   /\ ix_ x4 x4 (CouplingElement.K e4) = CouplingElement.K e4
   /\ ix_ x4 x4 (CouplingElement.C e4) = CouplingElement.C e4)
  /\ (CouplingElement6DoF.M r6 = ix_ x6 x6 (CouplingElement6DoF.M e6)
      /\ CouplingElement6DoF.G r6 = ix_ x6 x6 (CouplingElement6DoF.G e6)
      /\ CouplingElement6DoF.K r6 = CouplingElement6DoF.K e6
      /\ CouplingElement6DoF.C r6 = CouplingElement6DoF.C e6
      /\ ix_ x6 x6 (CouplingElement6DoF.K e6) = CouplingElement6DoF.K e6
      /\ ix_ x6 x6 (CouplingElement6DoF.C e6) = CouplingElement6DoF.C e6).
Proof. repeat split. Qed.

(** X5. Each matrix determines the parameters it is made of, and nothing
    else enters it: two elements have the same K exactly when they have the
    same stiffness coefficients, the same C exactly when they have the same
    damping coefficients, the same M exactly when they have the same masses
    and diametral inertias (and, 6-DOF, polar inertias), the same G exactly
    when they have the same polar inertias. *)
Theorem matrices_determine_parameters
  (e4 e4' : CouplingElement.self) (e6 e6' : CouplingElement6DoF.self) :
  ((CouplingElement.K e4 = CouplingElement.K e4' <-> stiffness4 e4 = stiffness4 e4')
   /\ (CouplingElement.C e4 = CouplingElement.C e4' <-> damping4 e4 = damping4 e4')
   /\ (CouplingElement.M e4 = CouplingElement.M e4'
       <-> (CouplingElement.m_l e4, CouplingElement.Id_l e4,
            CouplingElement.m_r e4, CouplingElement.Id_r e4)
           = (CouplingElement.m_l e4', CouplingElement.Id_l e4',
              CouplingElement.m_r e4', CouplingElement.Id_r e4'))
   /\ (CouplingElement.G e4 = CouplingElement.G e4'
       <-> (CouplingElement.Ip_l e4, CouplingElement.Ip_r e4)
           = (CouplingElement.Ip_l e4', CouplingElement.Ip_r e4')))
  /\
  ((CouplingElement6DoF.K e6 = CouplingElement6DoF.K e6' <-> stiffness6 e6 = stiffness6 e6')
   /\ (CouplingElement6DoF.C e6 = CouplingElement6DoF.C e6' <-> damping6 e6 = damping6 e6')
   /\ (CouplingElement6DoF.M e6 = CouplingElement6DoF.M e6'
       <-> (CouplingElement6DoF.m_l e6, CouplingElement6DoF.Id_l e6,
            CouplingElement6DoF.Ip_l e6, CouplingElement6DoF.m_r e6,
            CouplingElement6DoF.Id_r e6, CouplingElement6DoF.Ip_r e6)
           = (CouplingElement6DoF.m_l e6', CouplingElement6DoF.Id_l e6',
              CouplingElement6DoF.Ip_l e6', CouplingElement6DoF.m_r e6',
              CouplingElement6DoF.Id_r e6', CouplingElement6DoF.Ip_r e6'))
   /\ (CouplingElement6DoF.G e6 = CouplingElement6DoF.G e6'
       <-> (CouplingElement6DoF.Ip_l e6, CouplingElement6DoF.Ip_r e6)
           = (CouplingElement6DoF.Ip_l e6', CouplingElement6DoF.Ip_r e6'))).
Proof.
  destruct e4, e4', e6, e6'.
  unfold stiffness4, damping4, stiffness6, damping6.
  repeat split; cbn; intros H; injection H; intros; subst; reflexivity.
Qed.


Ltac zero_or_not k :=
  let E := fresh "E" in destruct (k =? 0)%float eqn:E.

(** X6. K() and C() have four entries that are not zero for each channel
    whose coefficient is not zero, and no other: none at all for an element
    without stiffness, or without damping. *)
Theorem nonzero_entries_count
  (e4 : CouplingElement.self) (e6 : CouplingElement6DoF.self) :
  length (np.nonzero (CouplingElement.K e4)) = 4 * active_channels (stiffness4 e4)
  /\ length (np.nonzero (CouplingElement.C e4)) = 4 * active_channels (damping4 e4)
  /\ length (np.nonzero (CouplingElement6DoF.K e6)) = 4 * active_channels (stiffness6 e6)
  /\ length (np.nonzero (CouplingElement6DoF.C e6)) = 4 * active_channels (damping6 e6).
Proof.
  destruct e4, e6.
  unfold np.nonzero, active_channels, stiffness4, damping4, stiffness6, damping6.
  cbn -[PrimFloat.eqb Nat.mul]. rewrite !eqb_opp_zero.
  repeat split;
    repeat match goal with
    | |- context [(?k =? 0)%float] => is_var k; zero_or_not k
    end; reflexivity.
Qed.

(** ** __repr__ and _patch *)

Section Shown.

Local Open Scope string_scope.

Variable float_format : float -> String.string -> String.string.
Variable Q_to : list float -> String.string -> String.string -> exception + list float.



(** X9. The outline a successful [_patch] draws: ten points and ten
    [customdata] entries, the last five points mirroring the first five
    across the axis, each half a closed loop between [position] and
    [position + L] of height [0.3], whatever the element's parameters. *)
Theorem patch_outline (S : Type) (E : Element S) (self : S) (l : float)
  (position : float) (check : bool) (fig fig' : go.Figure) (units : String.string) :
  attr_L self = Some l ->
  _patch Q_to self position check fig units = inr fig' ->
  exists zs ys t,
    fig' = fig ++ [t]
    /\ Q_to zs "m" units = inr (go.x t) /\ Q_to ys "m" units = inr (go.y t)
    /\ length zs = 10 /\ length ys = 10
    /\ go.customdata t = repeat [attr_n self] 10
    /\ (forall i, i < 5 ->
        nth (i + 5) zs 0%float = nth i zs 0%float
        /\ nth (i + 5) ys 0%float = (- nth i ys 0)%float)
    /\ (nth 4 zs 0%float = nth 0 zs 0%float /\ nth 4 ys 0%float = nth 0 ys 0%float)
    /\ Forall (fun z => z = position \/ z = (position + l)%float) zs
    /\ Forall (fun v => In v [0; 0.3; - 0; - 0.3]%float) ys.
Proof.
  intros HL. rewrite patch_unfolded, HL. cbv zeta.
  destruct (Q_to (position :: _) "m" units) as [e|xs] eqn:Ex; [discriminate|].
  destruct (Q_to (0%float :: _) "m" units) as [e|ys] eqn:Ey; [discriminate|].
  intros H. injection H as <-.
  eexists _, _, _. split; [reflexivity|].
  split; [exact Ex|]. split; [exact Ey|].
  split; [reflexivity|]. split; [reflexivity|]. split; [reflexivity|].
  split.
  { intros i Hi. do 5 (destruct i as [|i]; [split; reflexivity|]). lia. }
  split; [split; reflexivity|].
  split.
  - repeat (apply Forall_cons; [auto|]). apply Forall_nil.
  - repeat (apply Forall_cons; [simpl; auto 6|]). apply Forall_nil.
Qed.


(** X11. The texts show the element number faithfully: two elements of the
    same length with the same [repr] have the same number, and two drawings
    with the same hover text are of elements with the same number. *)
Theorem number_shown
  (e e' : CouplingElement.self) (l : float)
  (S S' : Type) (E : Element S) (E' : Element S') (s : S) (s' : S')
  (position position' : float) (check check' : bool) (fig fig' : go.Figure)
  (units units' : String.string) :
  (CouplingElement.L e = Some l -> CouplingElement.L e' = Some l ->
   __repr__ float_format e = __repr__ float_format e' ->
   CouplingElement.n e = CouplingElement.n e')
  /\ (forall t t',
      _patch Q_to s position check fig units = inr (fig ++ [t]) ->
      _patch Q_to s' position' check' fig' units' = inr (fig' ++ [t']) ->
      go.hovertemplate t = go.hovertemplate t' ->
      attr_n s = attr_n s').
Proof.
  split; [|intros t t'].
  - unfold __repr__. intros -> -> H.
    match type of H with inr ?A = inr ?B => assert (H' : A = B) by congruence end.
    apply str_number_inj. exact (repr_inj H').
  - rewrite !patch_unfolded.
    destruct (attr_L s) as [l1|]; [|discriminate].
    destruct (attr_L s') as [l2|]; [|discriminate]. cbv zeta.
    destruct (Q_to (position :: _) "m" units) as [?|xs]; [discriminate|].
    destruct (Q_to (0%float :: _) "m" units) as [?|ys]; [discriminate|].
    destruct (Q_to (position' :: _) "m" units') as [?|xs']; [discriminate|].
    destruct (Q_to (0%float :: _) "m" units') as [?|ys']; [discriminate|].
    intros H H' Ht.
    match type of H with inr ?A = inr ?B => assert (H1 : A = B) by congruence end.
    match type of H' with inr ?A = inr ?B => assert (H2 : A = B) by congruence end.
    apply app_inv_head in H1, H2.
    match type of H1 with [?A] = [?B] => assert (T1 : B = A) by congruence end.
    match type of H2 with [?A] = [?B] => assert (T2 : B = A) by congruence end.
    rewrite T1, T2 in Ht. cbn [go.hovertemplate] in Ht.
    apply str_number_inj. exact (hover_inj Ht).
Qed.

End Shown.



Lemma patch_outline_witness :
  let e := CouplingElement.__init__ with_length4 in
  attr_L e = Some 0.5%float
  /\ _patch metres_only e 2%float true [] "m"%string = inr drawn4
  /\ exists zs ys t,
       drawn4 = [] ++ [t]
       /\ metres_only zs "m"%string "m"%string = inr (go.x t)
       /\ metres_only ys "m"%string "m"%string = inr (go.y t)
       /\ length zs = 10 /\ length ys = 10
       /\ go.customdata t = repeat [attr_n e] 10
       /\ (forall i, i < 5 ->
           nth (i + 5) zs 0%float = nth i zs 0%float
           /\ nth (i + 5) ys 0%float = (- nth i ys 0)%float)
       /\ (nth 4 zs 0%float = nth 0 zs 0%float /\ nth 4 ys 0%float = nth 0 ys 0%float)
       /\ Forall (fun z => z = 2%float \/ z = (2 + 0.5)%float) zs
       /\ Forall (fun v => In v [0; 0.3; - 0; - 0.3]%float) ys.
Proof.
  intros e. split; [reflexivity|]. split; [reflexivity|].
  apply (@patch_outline metres_only _ _ e 0.5%float 2%float true [] drawn4 "m"%string);
    reflexivity.
Defined.


Lemma number_shown_witness :
  let e := CouplingElement.__init__ with_length4 in
  let e' := CouplingElement.__init__ (bending_part with_length6) in
  let e6 := CouplingElement6DoF.__init__ with_length6 in
  (CouplingElement.L e = Some 0.5%float /\ CouplingElement.L e' = Some 0.5%float
   /\ __repr__ format_hidden e = __repr__ format_hidden e')
  /\ CouplingElement.n e = CouplingElement.n e'
  /\ exists t t',
       _patch metres_only e 2%float true [] "m"%string = inr ([] ++ [t])
       /\ _patch metres_only e6 3%float false drawn4 "m"%string = inr (drawn4 ++ [t'])
       /\ go.hovertemplate t = go.hovertemplate t'
       /\ attr_n e = attr_n e6.
Proof.
  intros e e' e6.
  pose proof (number_shown format_hidden metres_only e e' 0.5%float _ _ e e6
                2%float 3%float true false [] drawn4 "m"%string "m"%string)
    as [Hrepr Hhover].
  split; [repeat split|]. split; [apply Hrepr; reflexivity|].
  eexists. eexists.
  split; [reflexivity|]. split; [reflexivity|]. split; [reflexivity|].
  eapply Hhover; reflexivity.
Defined.
